(** * extract_history.py: historical snapshot extractor

    A shallow embedding of [src/extract_history.py] and the properties of its
    date generator, revision resolver, snapshot reader, orchestrator loop and
    archive writer.

    Conventions.
    - Python [int] is [Z]; [str] is [string] (UTF-8 bytes); a list is [list].
    - [datetime] values are records of their calendar fields.  The calendar
      arithmetic follows CPython's [_datetimemodule.c] ([ymd_to_ord],
      [weekday], [normalize_y_m_d], ...), which is what the script runs.
    - The remote Drive and Sheets services are records of request handlers
      over an arbitrary world state; a call either returns or raises.
    - Console output ([print]) and the pause between iterations
      ([time.sleep]) do not influence any value and are left out. *)

From Stdlib Require Import ZArith List String Ascii Bool Lia.
From Stdlib Require Import Permutation Sorted DecimalString.
Import ListNotations.

Local Open Scope string_scope.
Local Open Scope list_scope.
Local Open Scope Z_scope.

(* ================================================================== *)
(** * Outcomes of running Python code *)

(** The exception classes that matter to the script's handlers. *)
Inductive exn : Type :=
| HttpError (reason : string)      (* googleapiclient.errors.HttpError *)
| ValueError (reason : string)
| OverflowError (reason : string)
| OtherException (reason : string). (* anything that is not an HttpError *)

(** A computation returns, raises, or is cut off by the step budget that
    stands for a loop that has not finished yet. *)
Inductive result (A : Type) : Type :=
| Returned (a : A)
| Raised (e : exn)
| OutOfFuel.

Arguments Returned {A} a.
Arguments Raised {A} e.
Arguments OutOfFuel {A}.

(* ================================================================== *)
(** * Calendar arithmetic (datetime) *)

Definition MINYEAR : Z := 1.
Definition MAXYEAR : Z := 9999.

(** A naive [datetime]: calendar fields without a timezone. *)
Record naive : Type := mkNaive {
  year : Z; month : Z; day : Z;
  hour : Z; minute : Z; second : Z; microsecond : Z
}.

(** An aware [datetime]: the wall-clock fields and the UTC offset, in
    seconds, of the [tzinfo] attached to it. *)
Record aware : Type := mkAware {
  wall : naive;
  utcoffset : Z
}.

Definition is_leap (y : Z) : bool :=
  (y mod 4 =? 0) && (negb (y mod 100 =? 0) || (y mod 400 =? 0)).

(** [_days_in_month] table, index 1..12. *)
Definition days_in_month_table (m : Z) : Z :=
  match m with
  | 1 => 31 | 2 => 28 | 3 => 31 | 4 => 30 | 5 => 31 | 6 => 30
  | 7 => 31 | 8 => 31 | 9 => 30 | 10 => 31 | 11 => 30 | 12 => 31
  | _ => 0
  end.

(** [_days_before_month] table, index 1..12. *)
Definition days_before_month_table (m : Z) : Z :=
  match m with
  | 1 => 0 | 2 => 31 | 3 => 59 | 4 => 90 | 5 => 120 | 6 => 151
  | 7 => 181 | 8 => 212 | 9 => 243 | 10 => 273 | 11 => 304 | 12 => 334
  | _ => 0
  end.

Definition days_in_month (y m : Z) : Z :=
  if (m =? 2) && is_leap y then 29 else days_in_month_table m.

Definition days_before_month (y m : Z) : Z :=
  days_before_month_table m + (if (2 <? m) && is_leap y then 1 else 0).

Definition days_before_year (y : Z) : Z :=
  let y' := y - 1 in
  y' * 365 + y' / 4 - y' / 100 + y' / 400.

(** Proleptic Gregorian ordinal: 0001-01-01 is day 1. *)
Definition ymd_to_ord (y m d : Z) : Z :=
  days_before_year y + days_before_month y m + d.

(** [datetime.weekday()]: Monday is 0, Sunday is 6. *)
Definition weekday (t : naive) : Z :=
  (ymd_to_ord (year t) (month t) (day t) + 6) mod 7.

Definition DI400Y : Z := 146097.
Definition DI100Y : Z := 36524.
Definition DI4Y : Z := 1461.

(** Inverse of [ymd_to_ord], as CPython computes it. *)
Definition ord_to_ymd (ordinal : Z) : Z * Z * Z :=
  let ordinal := ordinal - 1 in
  let n400 := ordinal / DI400Y in
  let n := ordinal mod DI400Y in
  let n100 := n / DI100Y in
  let n := n mod DI100Y in
  let n4 := n / DI4Y in
  let n := n mod DI4Y in
  let n1 := n / 365 in
  let n := n mod 365 in
  let y := n400 * 400 + 1 + n100 * 100 + n4 * 4 + n1 in
  if (n1 =? 4) || (n100 =? 4) then (y - 1, 12, 31)
  else
    let leapyear := (n1 =? 3) && (negb (n4 =? 24) || (n100 =? 3)) in
    let m := Z.shiftr (n + 50) 5 in
    let preceding :=
      days_before_month_table m + (if (2 <? m) && leapyear then 1 else 0) in
    if n <? preceding
    then (y, m - 1, n - (preceding - days_in_month y (m - 1)) + 1)
    else (y, m, n - preceding + 1).

(** [normalize_y_m_d]: bring a day that left its month back into range.
    One day out of range takes the cheap paths; anything further goes
    through the ordinal. *)
Definition normalize_y_m_d (y m d : Z) : Z * Z * Z :=
  let dim := days_in_month y m in
  if (d <? 1) || (dim <? d) then
    if d =? 0 then
      if 0 <? m - 1 then (y, m - 1, days_in_month y (m - 1))
      else (y - 1, 12, 31)
    else if d =? dim + 1 then
      if 12 <? m + 1 then (y + 1, 1, 1) else (y, m + 1, 1)
    else ord_to_ymd (ymd_to_ord y m 1 + d - 1)
  else (y, m, d).

(** [normalize_datetime] after the fields were shifted by [days] days,
    [seconds] seconds and [micros] microseconds: carries run from the
    smallest unit upwards with floor division, then the date is fixed. *)
Definition normalize_datetime (t : naive) (days seconds micros : Z) : naive :=
  let us := microsecond t + micros in
  let s := second t + seconds + us / 1000000 in
  let us := us mod 1000000 in
  let mi := minute t + s / 60 in
  let s := s mod 60 in
  let h := hour t + mi / 60 in
  let mi := mi mod 60 in
  let d := day t + days + h / 24 in
  let h := h mod 24 in
  let '(y, m, d) := normalize_y_m_d (year t) (month t) d in
  mkNaive y m d h mi s us.

Definition in_year_range (y : Z) : bool := (MINYEAR <=? y) && (y <=? MAXYEAR).

(** Decimal rendering of an [int] ([str(n)], [%i], [%d]). *)
Definition decimal (n : Z) : string := NilZero.string_of_int (Z.to_int n).

(** Sequencing of two steps either of which may raise. *)
Definition and_then {A B : Type} (r : result A) (k : A -> result B)
    : result B :=
  match r with
  | Returned a => k a
  | Raised e => Raised e
  | OutOfFuel => OutOfFuel
  end.

(** The constructor receives its arguments as C [int]s (argument format
    [iii|iiii]): a Python [int] is first brought into a C [long], then
    into an [int], and raises [OverflowError] where it does not fit. *)
Definition INT_MIN : Z := -2147483648.
Definition INT_MAX : Z := 2147483647.
Definition LONG_MIN : Z := -9223372036854775808.
Definition LONG_MAX : Z := 9223372036854775807.

Definition as_c_int (v : Z) : result Z :=
  if (v <? LONG_MIN) || (LONG_MAX <? v) then
    Raised (OverflowError "Python int too large to convert to C long")
  else if INT_MAX <? v then
    Raised (OverflowError "signed integer is greater than maximum")
  else if v <? INT_MIN then
    Raised (OverflowError "signed integer is less than minimum")
  else Returned v.

(** [check_date_args] and [check_time_args]: fields out of range are
    refused with [ValueError]. *)
Definition check_date_time_args (y m d h mi s : Z) : result naive :=
  if negb (in_year_range y) then
    Raised (ValueError ("year " ++ decimal y ++ " is out of range")%string)
  else if negb ((1 <=? m) && (m <=? 12)) then
    Raised (ValueError "month must be in 1..12")
  else if negb ((1 <=? d) && (d <=? days_in_month y m)) then
    Raised (ValueError "day is out of range for month")
  else if negb ((0 <=? h) && (h <=? 23)) then
    Raised (ValueError "hour must be in 0..23")
  else if negb ((0 <=? mi) && (mi <=? 59)) then
    Raised (ValueError "minute must be in 0..59")
  else if negb ((0 <=? s) && (s <=? 59)) then
    Raised (ValueError "second must be in 0..59")
  else Returned (mkNaive y m d h mi s 0).

(** [datetime(year, month, day, hour, minute, second)]: the arguments are
    converted from left to right, then their ranges are checked. *)
Definition datetime (y m d h mi s : Z) : result naive :=
  and_then (as_c_int y) (fun y =>
  and_then (as_c_int m) (fun m =>
  and_then (as_c_int d) (fun d =>
  and_then (as_c_int h) (fun h =>
  and_then (as_c_int mi) (fun mi =>
  and_then (as_c_int s) (fun s =>
  check_date_time_args y m d h mi s)))))).

(** [t + timedelta(days=n)]; a result outside years 1..9999 raises
    [OverflowError]. *)
Definition add_days (t : naive) (n : Z) : result naive :=
  let t' := normalize_datetime t n 0 0 in
  if in_year_range (year t') then Returned t'
  else Raised (OverflowError "date value out of range").

(** Comparison of two naive datetimes: field by field, most significant
    first. *)
Definition naive_fields (t : naive) : list Z :=
  [year t; month t; day t; hour t; minute t; second t; microsecond t].

Fixpoint lex_compare (a b : list Z) : comparison :=
  match a, b with
  | [], [] => Eq
  | [], _ :: _ => Lt
  | _ :: _, [] => Gt
  | x :: a', y :: b' =>
      match x ?= y with
      | Eq => lex_compare a' b'
      | c => c
      end
  end.

Definition naive_le (a b : naive) : bool :=
  match lex_compare (naive_fields a) (naive_fields b) with
  | Gt => false
  | _ => true
  end.

(** The instant an aware datetime denotes: microseconds since the start of
    ordinal day 0, in UTC.  Aware datetimes are compared, tested for
    equality and hashed through this value. *)
Definition utc_micros (t : aware) : Z :=
  let w := wall t in
  ((ymd_to_ord (year w) (month w) (day w) * 86400
    + hour w * 3600 + minute w * 60 + second w - utcoffset t) * 1000000)
  + microsecond w.

Definition dt_eq (a b : aware) : bool := utc_micros a =? utc_micros b.
Definition dt_lt (a b : aware) : bool := utc_micros a <? utc_micros b.
Definition dt_le (a b : aware) : bool := utc_micros a <=? utc_micros b.
Definition dt_ge (a b : aware) : bool := utc_micros b <=? utc_micros a.

(** [t.astimezone(pytz.UTC)]: subtract the offset (a [timedelta] of
    [days] and [seconds] with [0 <= seconds < 86400]) and attach UTC.  As
    in all [datetime] arithmetic, a result outside years 1..9999 raises
    [OverflowError].  (A [t] whose zone is [pytz.UTC] itself is returned
    as it is, which is also what subtracting its zero offset gives.) *)
Definition astimezone_utc (t : aware) : result aware :=
  let days := utcoffset t / 86400 in
  let seconds := utcoffset t mod 86400 in
  let t' := normalize_datetime (wall t) (- days) (- seconds) 0 in
  if in_year_range (year t') then Returned (mkAware t' 0)
  else Raised (OverflowError "date value out of range").

(** A timezone as [pytz] uses it here: the UTC offset, in seconds, in
    force at a given wall-clock time. *)
Record timezone : Type := mkTimezone {
  offset_at : naive -> Z
}.

(** [tz.localize(t)]: same wall clock, offset of the zone at that time. *)
Definition localize (tz : timezone) (t : naive) : aware :=
  mkAware t (offset_at tz t).

(* ================================================================== *)
(** * Date generator: [get_weeknight_dates] (lines 44-63) *)

(** The [while current_date <= end_date] loop; [fuel] bounds the number of
    iterations. *)
Fixpoint weeknight_loop (fuel : nat) (eastern : timezone)
    (current_date end_date : naive) (dates : list aware)
    : result (list aware) :=
  match fuel with
  | O => OutOfFuel
  | S fuel' =>
      if naive_le current_date end_date then
        let dates :=
          if weekday current_date <=? 4
          then dates ++ [localize eastern current_date]
          else dates in
        match add_days current_date 1 with
        | Returned next => weeknight_loop fuel' eastern next end_date dates
        | Raised e => Raised e
        | OutOfFuel => OutOfFuel
        end
      else Returned dates
  end.

Definition get_weeknight_dates (fuel : nat) (eastern : timezone) (year : Z)
    : result (list aware) :=
  match datetime year 6 1 22 0 0 with
  | Returned current_date =>
      match datetime year 8 30 23 59 59 with
      | Returned end_date => weeknight_loop fuel eastern current_date end_date []
      | Raised e => Raised e
      | OutOfFuel => OutOfFuel
      end
  | Raised e => Raised e
  | OutOfFuel => OutOfFuel
  end.

Definition fixed_offset (seconds : Z) : timezone :=
  mkTimezone (fun _ => seconds).

(** Eastern Daylight Time and Eastern Standard Time, in seconds. *)
Definition EDT : Z := -14400.
Definition EST : Z := -18000.
Definition UTC : Z := 0.

(* ================================================================== *)
(** * Remote services and the state monad they run in *)

(** Truthiness of an optional string: [None] and [''] are false. *)
Definition truthy (s : option string) : bool :=
  match s with
  | Some s => negb (s =? "")%string
  | None => false
  end.

Definition nonempty {A : Type} (l : list A) : bool :=
  match l with
  | [] => false
  | _ :: _ => true
  end.

(** [d.get(key, default)] on a field that may be missing. *)
Definition get_default {A : Type} (field : option A) (default : A) : A :=
  match field with
  | Some v => v
  | None => default
  end.

(** A revision resource as listed with [fields='revisions(id,modifiedTime)'].
    [modifiedTime] holds the value of
    [datetime.fromisoformat(rev['modifiedTime'].replace('Z', '+00:00'))],
    the only way the script reads that field. *)
Record Revision : Type := mkRevision {
  rev_id : string;
  modifiedTime : aware
}.

Definition row : Type := list string.
Definition grid : Type := list row.

Record list_request : Type := mkListRequest {
  fileId : string;
  fields : string;
  pageSize : Z;
  pageToken : option string
}.

Record list_response : Type := mkListResponse {
  revisions : option (list Revision);
  nextPageToken : option string
}.

Record get_request : Type := mkGetRequest {
  get_spreadsheetId : string;
  get_range : string
}.

Record get_response : Type := mkGetResponse {
  values : option grid
}.

Record clear_request : Type := mkClearRequest {
  clear_spreadsheetId : string;
  clear_range : string
}.

Record update_request : Type := mkUpdateRequest {
  update_spreadsheetId : string;
  update_range : string;
  valueInputOption : string;
  body_values : grid
}.

Record update_response : Type := mkUpdateResponse {
  updatedRows : option Z
}.

(** A computation over the remote world: the outcome and the world it
    leaves behind (for a raise, the world at the point of the raise). *)
Definition M (World A : Type) : Type := World -> result A * World.

Definition ret {World A : Type} (a : A) : M World A :=
  fun w => (Returned a, w).

Definition bind {World A B : Type} (m : M World A) (k : A -> M World B)
    : M World B :=
  fun w =>
    match m w with
    | (Returned a, w') => k a w'
    | (Raised e, w') => (Raised e, w')
    | (OutOfFuel, w') => (OutOfFuel, w')
    end.

Definition out_of_fuel {World A : Type} : M World A :=
  fun w => (OutOfFuel, w).

(** A step that does not touch the remote world. *)
Definition lift {World A : Type} (r : result A) : M World A :=
  fun w => (r, w).

(** [try: body  except HttpError as error: handler]. *)
Definition try_except_HttpError {World A : Type} (body : M World A)
    (handler : string -> M World A) : M World A :=
  fun w =>
    match body w with
    | (Raised (HttpError reason), w') => handler reason w'
    | other => other
    end.

(** [try: body  except: handler] (a bare [except] catches everything). *)
Definition try_except_all {World A : Type} (body : M World A)
    (handler : M World A) : M World A :=
  fun w =>
    match body w with
    | (Raised _, w') => handler w'
    | other => other
    end.

Declare Scope py_scope.
Delimit Scope py_scope with py.
Notation "x <- c1 ;; c2" := (bind c1 (fun x => c2))
  (at level 61, c1 at next level, right associativity) : py_scope.
Notation "c1 ;; c2" := (bind c1 (fun _ => c2))
  (at level 61, right associativity) : py_scope.

(** [drive_service]: what [.revisions().list(...).execute()] does. *)
Record drive_service (World : Type) : Type := mkDrive {
  revisions_list : list_request -> M World list_response
}.

(** [sheets_service]: the three [.spreadsheets().values()] calls. *)
Record sheets_service (World : Type) : Type := mkSheets {
  values_get : get_request -> M World get_response;
  values_clear : clear_request -> M World unit;
  values_update : update_request -> M World update_response
}.

Arguments revisions_list {World} _ _ _.
Arguments values_get {World} _ _ _.
Arguments values_clear {World} _ _ _.
Arguments values_update {World} _ _ _.

Definition SOURCE_SPREADSHEET_ID : string :=
  "1zqHfqLxDgAbCf6E8-sogvZrefMTHxXe9XPiSW8_dVvg".
Definition SOURCE_SHEET_NAME : string := "Edit".
Definition DEST_SPREADSHEET_ID : string :=
  "1wwIedcXPAc33TVf7VmfOrWsBEkoJFbA0g2Y3d6RPSEw".
Definition DEST_SHEET_NAME : string := "Sheet1".

(* ================================================================== *)
(** * Revision resolver: [find_best_revision] (lines 65-126) *)

(** Lines 101-107: keep the qualifying revision with the smallest time;
    a later one replaces the best so far only when strictly earlier. *)
Fixpoint scan_at_or_after (target_utc : aware) (all_revisions : list Revision)
    (best_revision : option Revision) : option Revision :=
  match all_revisions with
  | [] => best_revision
  | rev :: rest =>
      let rev_time := modifiedTime rev in
      let best_revision :=
        if dt_ge rev_time target_utc then
          match best_revision with
          | None => Some rev
          | Some best =>
              if dt_lt rev_time (modifiedTime best) then Some rev
              else best_revision
          end
        else best_revision in
      scan_at_or_after target_utc rest best_revision
  end.

(** Lines 111-115, over the reversed list: stop at the first revision at
    or before the target. *)
Fixpoint scan_at_or_before (target_utc : aware) (reversed : list Revision)
    : option Revision :=
  match reversed with
  | [] => None
  | rev :: rest =>
      let rev_time := modifiedTime rev in
      if dt_le rev_time target_utc then Some rev
      else scan_at_or_before target_utc rest
  end.

(** Lines 100-122: the selection on the fetched list, for the target
    already converted to UTC. *)
Definition select_revision (target_utc : aware)
    (all_revisions : list Revision) : option string :=
  let best_revision := scan_at_or_after target_utc all_revisions None in
  let best_revision :=
    match best_revision with
    | None => scan_at_or_before target_utc (rev all_revisions)
    | Some _ => best_revision
    end in
  match best_revision with
  | Some best => Some (rev_id best)
  | None => None
  end.

Section Remote.
Context {World : Type}.
Local Open Scope py_scope.

(** Lines 72-91: the [while True] pagination loop. *)
Fixpoint list_all_pages (fuel : nat) (drive : drive_service World)
    (file_id : string) (all_revisions : list Revision)
    (page_token : option string) : M World (list Revision) :=
  match fuel with
  | O => out_of_fuel
  | S fuel' =>
      response <-
        (if truthy page_token then
           revisions_list drive
             (mkListRequest file_id
                "nextPageToken,revisions(id,modifiedTime)" 1000 page_token)
         else
           revisions_list drive
             (mkListRequest file_id
                "nextPageToken,revisions(id,modifiedTime)" 1000 None)) ;;
      let all_revisions :=
        all_revisions ++ get_default (revisions response) [] in
      let page_token := nextPageToken response in
      if negb (truthy page_token) then ret all_revisions
      else list_all_pages fuel' drive file_id all_revisions page_token
  end.

Definition find_best_revision (fuel : nat) (drive : drive_service World)
    (file_id : string) (target_time : aware) : M World (option string) :=
  try_except_HttpError
    (all_revisions <- list_all_pages fuel drive file_id [] None ;;
     if negb (nonempty all_revisions) then ret None
     else
       target_utc <- lift (astimezone_utc target_time) ;;
       ret (select_revision target_utc all_revisions))
    (fun _ => ret None).

(* ================================================================ *)
(** * Snapshot reader: [read_sheet_data] (lines 165-178) *)

Definition read_sheet_data (sheets : sheets_service World)
    (spreadsheet_id range_name : string) : M World grid :=
  try_except_HttpError
    (result <- values_get sheets (mkGetRequest spreadsheet_id range_name) ;;
     ret (get_default (values result) []))
    (fun _ => ret []).

End Remote.

(* ================================================================== *)
(** * The accumulator: a Python [dict] keyed by aware datetimes *)

(** Insertion-ordered association list.  Keys are equal when they denote
    the same instant ([datetime.__eq__] and [__hash__]). *)
Definition dict : Type := list (aware * grid).

(** [d[key] = value]: an existing equal key keeps its place and its key
    object; a new key goes to the end. *)
Fixpoint dict_set (key : aware) (value : grid) (d : dict) : dict :=
  match d with
  | [] => [(key, value)]
  | (k, v) :: d' =>
      if dt_eq k key then (k, value) :: d'
      else (k, v) :: dict_set key value d'
  end.

Fixpoint dict_get (key : aware) (d : dict) : option grid :=
  match d with
  | [] => None
  | (k, v) :: d' => if dt_eq k key then Some v else dict_get key d'
  end.

(** The representation invariant of a [dict]: no two keys are equal. *)
Definition dict_ok (d : dict) : Prop :=
  NoDup (map (fun kv => utc_micros (fst kv)) d).

(* ================================================================== *)
(** * Orchestrator loop: [main] (lines 264-293) *)

Section Orchestrator.
Context {World : Type}.
Local Open Scope py_scope.

(** Lines 273-290: what is stored for [date] once the resolver has
    answered [revision_id]. *)
Definition store_snapshot (sheets : sheets_service World)
    (revision_id : option string) (date : aware)
    (all_historical_data : dict) : M World dict :=
  if truthy revision_id then
    data <- read_sheet_data sheets SOURCE_SPREADSHEET_ID
              (SOURCE_SHEET_NAME ++ "!A:L")%string ;;
    if nonempty data then ret (dict_set date data all_historical_data)
    else ret (dict_set date [] all_historical_data)
  else ret (dict_set date [] all_historical_data).

(** Lines 266-293: [for i, date in enumerate(target_dates, 1)]. *)
Fixpoint main_loop (fuel : nat) (drive : drive_service World)
    (sheets : sheets_service World) (target_dates : list aware)
    (all_historical_data : dict) : M World dict :=
  match target_dates with
  | [] => ret all_historical_data
  | date :: rest =>
      revision_id <-
        find_best_revision fuel drive SOURCE_SPREADSHEET_ID date ;;
      all_historical_data <-
        store_snapshot sheets revision_id date all_historical_data ;;
      main_loop fuel drive sheets rest all_historical_data
  end.

End Orchestrator.

(* ================================================================== *)
(** * Archive writer: [append_to_destination] (lines 188-243) *)


(** Two digits, zero padded ([%d], [%m], [%H], [%M], [%S]). *)
Definition pad2 (n : Z) : string :=
  if n <? 10 then ("0" ++ decimal n)%string else decimal n.

Definition day_name (wd : Z) : string :=
  match wd with
  | 0 => "Monday" | 1 => "Tuesday" | 2 => "Wednesday" | 3 => "Thursday"
  | 4 => "Friday" | 5 => "Saturday" | _ => "Sunday"
  end.

Definition month_name (m : Z) : string :=
  match m with
  | 1 => "January" | 2 => "February" | 3 => "March" | 4 => "April"
  | 5 => "May" | 6 => "June" | 7 => "July" | 8 => "August"
  | 9 => "September" | 10 => "October" | 11 => "November"
  | _ => "December"
  end.

(** [date.strftime('%A, %B %d, %Y at 10:00 PM ET')]. *)
Definition strftime_header (date : aware) : string :=
  let w := wall date in
  (day_name (weekday w) ++ ", " ++ month_name (month w) ++ " "
   ++ pad2 (day w) ++ ", " ++ decimal (year w) ++ " at 10:00 PM ET")%string.

(** [now.strftime("%Y-%m-%d %H:%M:%S")]. *)
Definition strftime_stamp (now : naive) : string :=
  (decimal (year now) ++ "-" ++ pad2 (month now) ++ "-" ++ pad2 (day now)
   ++ " " ++ pad2 (hour now) ++ ":" ++ pad2 (minute now) ++ ":"
   ++ pad2 (second now))%string.

(** [s * n]. *)
Fixpoint str_repeat (s : string) (n : nat) : string :=
  match n with
  | O => ""
  | S n' => (s ++ str_repeat s n')%string
  end.

(** Python's [==] and [<] on lists: the first position that differs
    decides, otherwise the shorter list is the smaller. *)
Fixpoint list_eqb {A : Type} (eqb : A -> A -> bool) (a b : list A) : bool :=
  match a, b with
  | [], [] => true
  | x :: a', y :: b' => eqb x y && list_eqb eqb a' b'
  | _, _ => false
  end.

Fixpoint list_ltb {A : Type} (eqb ltb : A -> A -> bool) (a b : list A)
    : bool :=
  match a, b with
  | _, [] => false
  | [], _ :: _ => true
  | x :: a', y :: b' =>
      if eqb x y then list_ltb eqb ltb a' b' else ltb x y
  end.

Definition row_eqb : row -> row -> bool := list_eqb String.eqb.
Definition row_ltb : row -> row -> bool := list_ltb String.eqb String.ltb.
Definition grid_eqb : grid -> grid -> bool := list_eqb row_eqb.
Definition grid_ltb : grid -> grid -> bool := list_ltb row_eqb row_ltb.

(** [<] on the [(date, data)] tuples that [all_data.items()] yields. *)
Definition item_ltb (a b : aware * grid) : bool :=
  if dt_eq (fst a) (fst b) then grid_ltb (snd a) (snd b)
  else dt_lt (fst a) (fst b).

(** [sorted(...)]: a stable sort that only asks [<].  An element is put
    in front of the first one it is smaller than. *)
Fixpoint insert_item (x : aware * grid) (l : list (aware * grid))
    : list (aware * grid) :=
  match l with
  | [] => [x]
  | y :: l' => if item_ltb x y then x :: l else y :: insert_item x l'
  end.

Definition sorted (items : list (aware * grid)) : list (aware * grid) :=
  fold_left (fun acc x => insert_item x acc) items [].

Definition calendar_emoji : string :=
  String (ascii_of_nat 240) (String (ascii_of_nat 159)
    (String (ascii_of_nat 147) (String (ascii_of_nat 133) ""))).

(** Lines 202-216: the rows one date contributes, appended to
    [all_values]. *)
Definition append_section (all_values : grid) (item : aware * grid) : grid :=
  let '(date, data) := item in
  let date_str := strftime_header date in
  let all_values :=
    all_values ++ [[(calendar_emoji ++ " " ++ date_str)%string]] in
  let all_values := all_values ++ [[""]] in
  let all_values :=
    if nonempty data then all_values ++ data
    else all_values ++ [["[No data found for this date]"]] in
  let all_values := all_values ++ [[""]] in
  let all_values := all_values ++ [[str_repeat "-" 50]] in
  all_values ++ [[""]].

(** Lines 192-216: the row matrix; [now] is the reading of
    [datetime.now()]. *)
Definition build_all_values (now : naive) (all_data : dict) : grid :=
  let all_values := [] in
  let all_values :=
    all_values
    ++ [[("Historical Data Extract - Generated " ++ strftime_stamp now)%string]] in
  let all_values :=
    all_values
    ++ [["10pm ET Snapshots - Weeknights (Mon-Fri) June 1 - August 30"]] in
  let all_values := all_values ++ [[str_repeat "=" 50]] in
  let all_values := all_values ++ [[""]] in
  fold_left append_section (sorted all_data) all_values.

Section Writer.
Context {World : Type}.
Local Open Scope py_scope.

(** Lines 219-227: clear the destination; any exception is dropped. *)
Definition clear_destination (sheets : sheets_service World)
    : M World unit :=
  try_except_all
    (values_clear sheets
       (mkClearRequest DEST_SPREADSHEET_ID (DEST_SHEET_NAME ++ "!A:L")%string) ;;
     ret tt)
    (ret tt).

(** Lines 230-243: the bulk write; [HttpError] is reported, not raised. *)
Definition write_destination (sheets : sheets_service World)
    (all_values : grid) : M World unit :=
  try_except_HttpError
    (result <- values_update sheets
       (mkUpdateRequest DEST_SPREADSHEET_ID (DEST_SHEET_NAME ++ "!A1")%string
          "USER_ENTERED" all_values) ;;
     ret tt)
    (fun _ => ret tt).

Definition append_to_destination (sheets : sheets_service World)
    (now : naive) (all_data : dict) : M World unit :=
  let all_values := build_all_values now all_data in
  clear_destination sheets ;;
  write_destination sheets all_values.

(** [main] (lines 245-302) for the year read from [EXTRACT_YEAR]. *)
Definition main (fuel : nat) (eastern : timezone) (now : naive)
    (drive : drive_service World) (sheets : sheets_service World)
    (year : Z) : M World unit :=
  match get_weeknight_dates fuel eastern year with
  | Returned target_dates =>
      all_historical_data <- main_loop fuel drive sheets target_dates [] ;;
      append_to_destination sheets now all_historical_data
  | Raised e => fun w => (Raised e, w)
  | OutOfFuel => out_of_fuel
  end.

End Writer.

(* ================================================================== *)
(** * Vocabulary of the statements *)

(** The instant of a revision, and its place relative to the instant of
    a target. *)
Definition rev_micros (r : Revision) : Z := utc_micros (modifiedTime r).

Definition at_or_after (target : aware) (r : Revision) : Prop :=
  utc_micros target <= rev_micros r.

Definition strictly_before (target : aware) (r : Revision) : Prop :=
  rev_micros r < utc_micros target.

(** The instant of the key of an accumulator entry. *)
Definition key_micros (kv : aware * grid) : Z := utc_micros (fst kv).

(** The range the snapshot reader is asked for. *)
Definition SOURCE_RANGE : string := (SOURCE_SHEET_NAME ++ "!A:L")%string.

(** One iteration of the orchestrator loop (lines 271-290), as a
    computation on the accumulator. *)
Definition loop_body {World : Type} (drive : drive_service World)
    (sheets : sheets_service World) (fuel : nat) (date : aware) (acc : dict)
    : M World dict :=
  bind (find_best_revision fuel drive SOURCE_SPREADSHEET_ID date)
       (fun revision_id => store_snapshot sheets revision_id date acc).

(** The two requests the archive writer sends. *)
Definition clear_request_sent : clear_request :=
  mkClearRequest DEST_SPREADSHEET_ID "Sheet1!A:L".

Definition update_request_sent (all_values : grid) : update_request :=
  mkUpdateRequest DEST_SPREADSHEET_ID "Sheet1!A1" "USER_ENTERED" all_values.

(** The layout of the archive, stated directly: four banner rows, then
    one section per date. *)
Definition banner_rows (now : naive) : grid :=
  [[("Historical Data Extract - Generated " ++ strftime_stamp now)%string];
   ["10pm ET Snapshots - Weeknights (Mon-Fri) June 1 - August 30"];
   [str_repeat "=" 50];
   [""]].

Definition header_row (date : aware) : row :=
  [(calendar_emoji ++ " " ++ strftime_header date)%string].

Definition snapshot_rows (data : grid) : grid :=
  match data with
  | [] => [["[No data found for this date]"]]
  | _ :: _ => data
  end.

Definition section_rows (item : aware * grid) : grid :=
  [header_row (fst item); [""]]
  ++ snapshot_rows (snd item)
  ++ [[""]; [str_repeat "-" 50]; [""]].

(** Ascending order of the keys of accumulator entries. *)
Definition key_lt (a b : aware * grid) : Prop := key_micros a < key_micros b.

(** The calendar side of the date generator: the days of June, July and
    August 1..30 of a year at 22:00:00, in order. *)
Definition at_10pm (y m d : Z) : naive := mkNaive y m d 22 0 0 0.

Definition month_days (y m : Z) (n : nat) : list naive :=
  map (fun d => at_10pm y m (Z.of_nat d)) (seq 1 n).

Definition summer_days (y : Z) : list naive :=
  month_days y 6 30 ++ month_days y 7 31 ++ month_days y 8 30.

Definition in_summer (m d : Z) : Prop :=
  (m = 6 /\ 1 <= d <= 30) \/ (m = 7 /\ 1 <= d <= 31) \/ (m = 8 /\ 1 <= d <= 30).

(** Monday to Friday. *)
Definition is_weeknight (t : naive) : bool := weekday t <=? 4.

Definition day_number (t : naive) : Z :=
  ymd_to_ord (year t) (month t) (day t).

(** A strictly later calendar day at the same time of day. *)
Definition later_day (a b : naive) : Prop :=
  day_number a < day_number b
  /\ hour a = hour b /\ minute a = minute b /\ second a = second b
  /\ microsecond a = microsecond b.

Definition earlier_instant (a b : aware) : Prop := utc_micros a < utc_micros b.

(** The day after day [d] of month [m], for a month before December. *)
Definition tomorrow (y m d : Z) : naive :=
  if d <? days_in_month y m then at_10pm y m (d + 1)
  else at_10pm y (m + 1) 1.

(** [steps l nxt]: each element of [l] plus one day is the next element,
    and the last one plus one day is [nxt]. *)
Fixpoint steps (l : list naive) (nxt : naive) : Prop :=
  match l with
  | [] => True
  | t :: l' => add_days t 1 = Returned (hd nxt l') /\ steps l' nxt
  end.

(** Whether an exception is the one class the script's handlers name. *)
Definition is_http_error (e : exn) : bool :=
  match e with
  | HttpError _ => true
  | _ => false
  end.

(** An outcome that is not a raised [HttpError]. *)
Definition no_http_error {A : Type} (out : result A) : Prop :=
  match out with
  | Raised e => is_http_error e = false
  | _ => True
  end.

(** The [k]-th day of the range June 1 .. August 30, counted from 0. *)
Definition nth_summer_day (y : Z) (k : nat) : naive :=
  if (k <? 30)%nat then at_10pm y 6 (Z.of_nat k + 1)
  else if (k <? 61)%nat then at_10pm y 7 (Z.of_nat k - 29)
  else at_10pm y 8 (Z.of_nat k - 60).

(** A Drive that serves a fixed sequence of pages.  Its world is the
    token it expects with the next request and the pages not served yet,
    each with the [nextPageToken] it hands out; a request with another
    token is refused. *)
Definition option_string_eqb (a b : option string) : bool :=
  match a, b with
  | None, None => true
  | Some x, Some y => (x =? y)%string
  | _, _ => false
  end.

Definition paged_world : Type :=
  option string * list (list Revision * option string).

Definition paged_drive : drive_service paged_world :=
  mkDrive paged_world
    (fun req w =>
       if option_string_eqb (pageToken req) (fst w) then
         match snd w with
         | [] => (Raised (HttpError "no more pages"), w)
         | (revs, next) :: rest =>
             (Returned (mkListResponse (Some revs) next), (next, rest))
         end
       else (Raised (HttpError "invalid page token"), w)).

(** Every page but the last hands out a truthy token; the last one hands
    out none, or the empty string. *)
Fixpoint well_paged (pages : list (list Revision * option string)) : Prop :=
  match pages with
  | [] => False
  | (_, next) :: rest =>
      match rest with
      | [] => truthy next = false
      | _ :: _ => truthy next = true /\ well_paged rest
      end
  end.

(** The remote calls of a run, in order. *)
Inductive event : Type :=
| ListCall (req : list_request)
| GetCall (req : get_request)
| ClearCall (req : clear_request)
| UpdateCall (req : update_request).

(** A call that also records itself in a log kept beside the world. *)
Definition traced {World A : Type} (ev : event) (call : M World A)
    : M (World * list event) A :=
  fun wl =>
    (fst (call (fst wl)), (snd (call (fst wl)), snd wl ++ [ev])).

Definition traced_drive {World : Type} (drive : drive_service World)
    : drive_service (World * list event) :=
  mkDrive (World * list event)
    (fun req => traced (ListCall req) (revisions_list drive req)).

Definition traced_sheets {World : Type} (sheets : sheets_service World)
    : sheets_service (World * list event) :=
  mkSheets (World * list event)
    (fun req => traced (GetCall req) (values_get sheets req))
    (fun req => traced (ClearCall req) (values_clear sheets req))
    (fun req => traced (UpdateCall req) (values_update sheets req)).

(** Listing the revisions of the source, or reading its fixed range. *)
Definition reads_source (ev : event) : Prop :=
  match ev with
  | ListCall req => fileId req = SOURCE_SPREADSHEET_ID
  | GetCall req => req = mkGetRequest SOURCE_SPREADSHEET_ID "Edit!A:L"
  | _ => False
  end.

(** [emits P m]: whatever the world and the log so far, [m] only appends
    events satisfying [P] to the log. *)
Definition emits {World A : Type} (P : event -> Prop)
    (m : M (World * list event) A) : Prop :=
  forall wl, exists evs, snd (snd (m wl)) = snd wl ++ evs /\ Forall P evs.

(** The ranges [datetime] guarantees for the fields of its values, and
    for the offset of a [tzinfo] (strictly less than a day). *)
Definition valid_naive (t : naive) : Prop :=
  MINYEAR <= year t <= MAXYEAR
  /\ 1 <= month t <= 12
  /\ 1 <= day t <= days_in_month (year t) (month t)
  /\ 0 <= hour t < 24 /\ 0 <= minute t < 60 /\ 0 <= second t < 60
  /\ 0 <= microsecond t < 1000000.

Definition valid_aware (t : aware) : Prop :=
  valid_naive (wall t) /\ -86400 < utcoffset t < 86400.

(** Canned services over a trivial world, for concrete runs: a Drive that
    answers every listing with one page, and one whose listing fails. *)
Definition one_page_drive (revs : list Revision) : drive_service unit :=
  mkDrive unit (fun _ w => (Returned (mkListResponse (Some revs) None), w)).

Definition failing_drive (e : exn) : drive_service unit :=
  mkDrive unit (fun _ w => (Raised e, w)).

(** A Sheets service over a world that is the live grid itself: reads
    return it, clears and writes succeed. *)
Definition live_sheets : sheets_service grid :=
  mkSheets grid
    (fun _ w => (Returned (mkGetResponse (Some w)), w))
    (fun _ w => (Returned tt, w))
    (fun req w => (Returned (mkUpdateResponse None), w)).

(** A Sheets service whose reads and clears fail with the given
    exceptions; the world counts the bulk writes that went through. *)
Definition flaky_sheets (get_error clear_error : exn) : sheets_service nat :=
  mkSheets nat
    (fun _ w => (Raised get_error, w))
    (fun _ w => (Raised clear_error, w))
    (fun req w => (Returned (mkUpdateResponse None), S w)).

(** A Sheets service over the trivial world whose every call fails. *)
Definition flaky_sheets_unit (e : exn) : sheets_service unit :=
  mkSheets unit
    (fun _ w => (Raised e, w))
    (fun _ w => (Raised e, w))
    (fun _ w => (Raised e, w)).

Definition utc_time (y m d h mi s : Z) : aware :=
  mkAware (mkNaive y m d h mi s 0) UTC.

Definition eastern_daylight (y m d h mi s : Z) : aware :=
  mkAware (mkNaive y m d h mi s 0) EDT.

(* ================================================================== *)
(** * Revision resolver: selection *)

(** Unfolding equations of the two scans. *)
Lemma scan_at_or_after_cons_none (target_utc : aware) (rev : Revision)
    (rest : list Revision) :
  scan_at_or_after target_utc (rev :: rest) None
  = scan_at_or_after target_utc rest
      (if dt_ge (modifiedTime rev) target_utc then Some rev else None).
Proof. reflexivity. Qed.

Lemma scan_at_or_after_cons_some (target_utc : aware) (rev best : Revision)
    (rest : list Revision) :
  scan_at_or_after target_utc (rev :: rest) (Some best)
  = scan_at_or_after target_utc rest
      (if dt_ge (modifiedTime rev) target_utc then
         if dt_lt (modifiedTime rev) (modifiedTime best) then Some rev
         else Some best
       else Some best).
Proof. reflexivity. Qed.

Lemma scan_at_or_before_cons (target_utc : aware) (rev : Revision)
    (rest : list Revision) :
  scan_at_or_before target_utc (rev :: rest)
  = if dt_le (modifiedTime rev) target_utc then Some rev
    else scan_at_or_before target_utc rest.
Proof. reflexivity. Qed.

(** The boolean comparisons of revision times, as order on instants. *)
Lemma dt_lt_rev_true (a b : Revision) :
  dt_lt (modifiedTime a) (modifiedTime b) = true
  <-> rev_micros a < rev_micros b.
Proof. unfold dt_lt, rev_micros. apply Z.ltb_lt. Qed.

Lemma dt_lt_rev_false (a b : Revision) :
  dt_lt (modifiedTime a) (modifiedTime b) = false
  <-> rev_micros b <= rev_micros a.
Proof. unfold dt_lt, rev_micros. apply Z.ltb_ge. Qed.

Lemma dt_le_target_true (target_utc : aware) (r : Revision) :
  dt_le (modifiedTime r) target_utc = true
  <-> rev_micros r <= utc_micros target_utc.
Proof. unfold dt_le, rev_micros. apply Z.leb_le. Qed.

Section ResolverFacts.
Variable target_utc : aware.

Lemma dt_ge_target (r : Revision) :
  dt_ge (modifiedTime r) target_utc = true <-> at_or_after target_utc r.
Proof. unfold dt_ge, at_or_after, rev_micros. apply Z.leb_le. Qed.

Lemma dt_ge_target_false (r : Revision) :
  dt_ge (modifiedTime r) target_utc = false <-> strictly_before target_utc r.
Proof.
  unfold dt_ge, strictly_before, rev_micros.
  rewrite Z.leb_gt. reflexivity.
Qed.

(** The minimum scan, started with a best candidate [b]: either [b]
    survives because nothing later qualifies with a strictly smaller
    time, or the result is the first occurrence of the smallest
    qualifying time, strictly below [b]. *)
Lemma scan_at_or_after_some (revs : list Revision) :
  forall b : Revision,
  exists r,
    scan_at_or_after target_utc revs (Some b) = Some r
    /\ ((r = b
         /\ forall x, In x revs -> at_or_after target_utc x ->
                      rev_micros b <= rev_micros x)
        \/ (exists pre post,
              revs = pre ++ r :: post
              /\ at_or_after target_utc r
              /\ rev_micros r < rev_micros b
              /\ (forall x, In x pre -> at_or_after target_utc x ->
                            rev_micros r < rev_micros x)
              /\ (forall x, In x post -> at_or_after target_utc x ->
                            rev_micros r <= rev_micros x))).
Proof.
  induction revs as [|x rest IH]; intros b.
  - exists b. split; [reflexivity|]. left. split; [reflexivity|].
    intros ? [].
  - rewrite scan_at_or_after_cons_some.
    destruct (dt_ge (modifiedTime x) target_utc) eqn:Hq.
    + apply dt_ge_target in Hq.
      destruct (dt_lt (modifiedTime x) (modifiedTime b)) eqn:Hlt.
      * apply dt_lt_rev_true in Hlt.
        destruct (IH x) as (r & Hr & [[-> Hmin] | (pre & post & -> & Hqr & Hlt' & Hpre & Hpost)]).
        -- exists x. split; [exact Hr|]. right. exists [], rest.
           repeat split; auto. intros ? [].
        -- exists r. split; [exact Hr|]. right. exists (x :: pre), post.
           repeat split; auto; try lia.
           intros y [<- | Hy] Hqy; [lia | auto].
      * apply dt_lt_rev_false in Hlt.
        destruct (IH b) as (r & Hr & [[-> Hmin] | (pre & post & -> & Hqr & Hlt' & Hpre & Hpost)]).
        -- exists b. split; [exact Hr|]. left. split; [reflexivity|].
           intros y [<- | Hy] Hqy; [lia | auto].
        -- exists r. split; [exact Hr|]. right. exists (x :: pre), post.
           repeat split; auto.
           intros y [<- | Hy] Hqy; [lia | auto].
    + apply dt_ge_target_false in Hq. unfold strictly_before in Hq.
      destruct (IH b) as (r & Hr & [[-> Hmin] | (pre & post & -> & Hqr & Hlt' & Hpre & Hpost)]).
      * exists b. split; [exact Hr|]. left. split; [reflexivity|].
        intros y [<- | Hy] Hqy; [unfold at_or_after in Hqy; lia | auto].
      * exists r. split; [exact Hr|]. right. exists (x :: pre), post.
        repeat split; auto.
        intros y [<- | Hy] Hqy; [unfold at_or_after in Hqy; lia | auto].
Qed.

(** Started with no candidate, the scan finds nothing when nothing
    qualifies. *)
Lemma scan_at_or_after_none (revs : list Revision) :
  Forall (strictly_before target_utc) revs ->
  scan_at_or_after target_utc revs None = None.
Proof.
  induction 1 as [|x rest Hx _ IH]; [reflexivity|].
  rewrite scan_at_or_after_cons_none.
  apply dt_ge_target_false in Hx. rewrite Hx. exact IH.
Qed.

(** Started with no candidate on a list where something qualifies, the
    scan returns the first occurrence of the smallest qualifying time. *)
Lemma scan_at_or_after_first_earliest (revs : list Revision) :
  Exists (at_or_after target_utc) revs ->
  exists pre r post,
    revs = pre ++ r :: post
    /\ scan_at_or_after target_utc revs None = Some r
    /\ at_or_after target_utc r
    /\ (forall x, In x pre -> at_or_after target_utc x ->
                  rev_micros r < rev_micros x)
    /\ (forall x, In x post -> at_or_after target_utc x ->
                  rev_micros r <= rev_micros x).
Proof.
  induction revs as [|x rest IH]; intros Hex.
  - inversion Hex.
  - rewrite scan_at_or_after_cons_none.
    destruct (dt_ge (modifiedTime x) target_utc) eqn:Hq.
    + apply dt_ge_target in Hq.
      destruct (scan_at_or_after_some rest x)
        as (r & Hr & [[-> Hmin] | (pre & post & -> & Hqr & Hlt' & Hpre & Hpost)]).
      * exists [], x, rest. repeat split; auto. intros ? [].
      * exists (x :: pre), r, post. repeat split; auto.
        intros y [<- | Hy] Hqy; [lia | auto].
    + apply dt_ge_target_false in Hq. unfold strictly_before in Hq.
      assert (Hex' : Exists (at_or_after target_utc) rest).
      { inversion Hex as [? ? Hx | ? ? Hx]; subst; [|exact Hx].
        unfold at_or_after in Hx. lia. }
      destruct (IH Hex') as (pre & r & post & -> & Hr & Hqr & Hpre & Hpost).
      exists (x :: pre), r, post. repeat split; auto.
      intros y [<- | Hy] Hqy; [unfold at_or_after in Hqy; lia | auto].
Qed.

(** The reverse scan stops at the head when the head is at or before
    the target. *)
Lemma scan_at_or_before_head (r : Revision) (rest : list Revision) :
  rev_micros r <= utc_micros target_utc ->
  scan_at_or_before target_utc (r :: rest) = Some r.
Proof.
  intros H. rewrite scan_at_or_before_cons.
  apply dt_le_target_true in H. rewrite H. reflexivity.
Qed.

(** When every revision is strictly before the target, the selection
    returns the last element of the list. *)
Lemma select_revision_all_before (revs : list Revision) (r : Revision) :
  Forall (strictly_before target_utc) (revs ++ [r]) ->
  select_revision target_utc (revs ++ [r]) = Some (rev_id r).
Proof.
  intros Hall. unfold select_revision.
  rewrite (scan_at_or_after_none _ Hall).
  rewrite rev_app_distr. cbn [rev app].
  rewrite scan_at_or_before_head; [reflexivity|].
  apply Forall_app in Hall. destruct Hall as [_ Hr].
  inversion Hr; subst. unfold strictly_before in *. lia.
Qed.

(** On a non-empty list the selection always names a listed revision. *)
Lemma select_revision_nonempty (revs : list Revision) :
  revs <> [] ->
  exists r, In r revs /\ select_revision target_utc revs = Some (rev_id r).
Proof.
  intros Hne.
  destruct (Exists_dec (at_or_after target_utc) revs) as [Hex | Hnone].
  { intros x. unfold at_or_after. apply Z_le_dec. }
  - destruct (scan_at_or_after_first_earliest revs Hex)
      as (pre & r & post & -> & Hr & _).
    exists r. split; [apply in_elt|].
    unfold select_revision. rewrite Hr. reflexivity.
  - destruct (exists_last Hne) as (revs' & r & ->).
    exists r. split; [apply in_elt|].
    apply select_revision_all_before.
    apply Forall_forall. intros x Hx.
    unfold strictly_before.
    destruct (Z_lt_dec (rev_micros x) (utc_micros target_utc)) as [|Hge]; [assumption|].
    exfalso. apply Hnone. apply Exists_exists. exists x. split; [exact Hx|].
    unfold at_or_after. lia.
Qed.

End ResolverFacts.

(** The conversion to UTC either returns or raises [OverflowError]. *)
Lemma astimezone_utc_raises (t : aware) (e : exn) :
  astimezone_utc t = Raised e -> e = OverflowError "date value out of range".
Proof.
  unfold astimezone_utc. cbv zeta.
  destruct (in_year_range _); intros H; [discriminate H|].
  injection H as <-. reflexivity.
Qed.

(* ================================================================== *)
(** * Revision resolver: the whole call *)

Section ResolverRuns.
Context {World : Type}.
Variable drive : drive_service World.

(** What [find_best_revision] does with each outcome of the listing and
    of the conversion of the target. *)
Lemma find_best_revision_run (fuel : nat) (file_id : string)
    (target_time : aware) (w : World) :
  find_best_revision fuel drive file_id target_time w =
  match list_all_pages fuel drive file_id [] None w with
  | (Returned revs, w') =>
      if nonempty revs then
        (match astimezone_utc target_time with
         | Returned target_utc => Returned (select_revision target_utc revs)
         | Raised e => Raised e
         | OutOfFuel => OutOfFuel
         end, w')
      else (Returned None, w')
  | (Raised (HttpError _), w') => (Returned None, w')
  | (Raised e, w') => (Raised e, w')
  | (OutOfFuel, w') => (OutOfFuel, w')
  end.
Proof.
  unfold find_best_revision, try_except_HttpError, bind, ret, lift.
  destruct (list_all_pages fuel drive file_id [] None w) as [[revs | e |] w'].
  - destruct revs as [|x revs]; [reflexivity|]. cbn [nonempty negb].
    destruct (astimezone_utc target_time) as [u | e |] eqn:Hconv.
    + reflexivity.
    + apply astimezone_utc_raises in Hconv. subst e. reflexivity.
    + reflexivity.
  - destruct e; reflexivity.
  - reflexivity.
Qed.

(** The resolver on a non-empty listing and a target that converts. *)
Lemma find_best_revision_selects (fuel : nat) (file_id : string)
    (target_time target_utc : aware) (w w' : World) (revs : list Revision) :
  list_all_pages fuel drive file_id [] None w = (Returned revs, w') ->
  revs <> [] ->
  astimezone_utc target_time = Returned target_utc ->
  find_best_revision fuel drive file_id target_time w
  = (Returned (select_revision target_utc revs), w').
Proof.
  intros Hlist Hne Hconv. rewrite find_best_revision_run, Hlist, Hconv.
  destruct revs; [contradiction | reflexivity].
Qed.

(** More fuel never changes a listing that has finished. *)
Lemma list_all_pages_more_fuel (fuel : nat) :
  forall fuel' file_id acc token w out w',
  (fuel <= fuel')%nat ->
  list_all_pages fuel drive file_id acc token w = (out, w') ->
  out <> OutOfFuel ->
  list_all_pages fuel' drive file_id acc token w = (out, w').
Proof.
  induction fuel as [|fuel IH]; intros fuel' file_id acc token w out w' Hle Hrun Hne.
  - cbn in Hrun. unfold out_of_fuel in Hrun. inversion Hrun; subst.
    contradiction.
  - destruct fuel' as [|fuel']; [lia|].
    cbn [list_all_pages] in *. unfold bind in *.
    destruct (if truthy token
              then revisions_list drive _
              else revisions_list drive _) as [[resp | e |] w1]; try exact Hrun.
    destruct (negb (truthy (nextPageToken resp))); [exact Hrun|].
    eapply IH; eauto. lia.
Qed.

(** A listing that raised [HttpError] makes the resolver answer none
    instead of raising. *)
Lemma find_best_revision_http_error (fuel : nat) (file_id : string)
    (target_time : aware) (w w' : World) (reason : string) :
  list_all_pages fuel drive file_id [] None w = (Raised (HttpError reason), w') ->
  find_best_revision fuel drive file_id target_time w = (Returned None, w').
Proof. intros H. rewrite find_best_revision_run, H. reflexivity. Qed.

(** When every listed revision is strictly before the target, the
    resolver answers with the last revision of the listing. *)
Lemma find_best_revision_all_before (fuel : nat) (file_id : string)
    (target_time target_utc : aware) (w w' : World) (revs : list Revision)
    (r : Revision) :
  list_all_pages fuel drive file_id [] None w = (Returned (revs ++ [r]), w') ->
  astimezone_utc target_time = Returned target_utc ->
  Forall (strictly_before target_utc) (revs ++ [r]) ->
  find_best_revision fuel drive file_id target_time w
  = (Returned (Some (rev_id r)), w').
Proof.
  intros Hlist Hconv Hall.
  rewrite (find_best_revision_selects fuel file_id target_time target_utc
             w w' (revs ++ [r]) Hlist); [|destruct revs; discriminate|exact Hconv].
  rewrite select_revision_all_before by exact Hall. reflexivity.
Qed.

End ResolverRuns.

(** In a listing whose times never decrease, the last revision is a
    latest one. *)
Lemma last_is_latest_when_ascending (revs : list Revision) (r : Revision) :
  Sorted (fun a b => rev_micros a <= rev_micros b) (revs ++ [r]) ->
  forall x, In x (revs ++ [r]) -> rev_micros x <= rev_micros r.
Proof.
  intros Hs.
  apply Sorted_StronglySorted in Hs; [|intros a b c; lia].
  induction revs as [|y revs IH]; intros x Hx.
  - destruct Hx as [<- | []]. lia.
  - cbn [app] in Hs. apply StronglySorted_inv in Hs. destruct Hs as [Hs Hy].
    destruct Hx as [<- | Hx]; [|auto].
    rewrite Forall_forall in Hy. apply Hy. apply in_elt.
Qed.

(** ** C1 *)




(** ** C2 *)

(** C2. A listing that is not in ascending time order, entirely before
    the target: the resolver returns the last listed revision, [b], although
    revision [a] is the later of the two. *)
Theorem find_best_revision_fallback_unsorted :
  let a := mkRevision "a" (utc_time 2024 6 3 10 0 0) in
  let b := mkRevision "b" (utc_time 2024 6 3 9 0 0) in
  let target := utc_time 2024 6 3 11 0 0 in
  Forall (strictly_before target) [a; b]
  /\ rev_micros b < rev_micros a
  /\ find_best_revision 1 (one_page_drive [a; b]) SOURCE_SPREADSHEET_ID target tt
     = (Returned (Some "b"), tt).
Proof.
  cbv zeta. split; [|split].
  - repeat constructor.
  - reflexivity.
  - reflexivity.
Qed.

(** ** C5 *)

(** C5. With revisions at 2024-06-03T01:55:00Z and 2024-06-03T02:05:00Z:
    the target 2024-06-02 22:00:00 Eastern (daylight time) is
    2024-06-03T02:00:00Z and the resolver returns the 02:05:00Z revision
    as the first at or after it; the target 2024-06-03 00:00:00 Eastern is
    2024-06-03T04:00:00Z, no revision is at or after it, and the resolver
    returns the 02:05:00Z revision through the fallback. *)
Theorem find_best_revision_june_2024 :
  forall (World : Type) (drive : drive_service World) (fuel : nat)
         (w w' : World) (id1 id2 : string),
  let revs := [mkRevision id1 (utc_time 2024 6 3 1 55 0);
               mkRevision id2 (utc_time 2024 6 3 2 5 0)] in
  let evening := eastern_daylight 2024 6 2 22 0 0 in
  let midnight := eastern_daylight 2024 6 3 0 0 0 in
  list_all_pages fuel drive SOURCE_SPREADSHEET_ID [] None w = (Returned revs, w') ->
  astimezone_utc evening = Returned (utc_time 2024 6 3 2 0 0)
  /\ find_best_revision fuel drive SOURCE_SPREADSHEET_ID evening w
     = (Returned (Some id2), w')
  /\ astimezone_utc midnight = Returned (utc_time 2024 6 3 4 0 0)
  /\ scan_at_or_after (utc_time 2024 6 3 4 0 0) revs None = None
  /\ find_best_revision fuel drive SOURCE_SPREADSHEET_ID midnight w
     = (Returned (Some id2), w').
Proof.
  intros World drive fuel w w' id1 id2 revs evening midnight Hlist.
  rewrite !find_best_revision_run, Hlist.
  repeat split; reflexivity.
Qed.

Lemma find_best_revision_june_2024_witness :
  let revs := [mkRevision "early" (utc_time 2024 6 3 1 55 0);
               mkRevision "late" (utc_time 2024 6 3 2 5 0)] in
  astimezone_utc (eastern_daylight 2024 6 2 22 0 0)
  = Returned (utc_time 2024 6 3 2 0 0)
  /\ find_best_revision 1 (one_page_drive revs) SOURCE_SPREADSHEET_ID
       (eastern_daylight 2024 6 2 22 0 0) tt
     = (Returned (Some "late"), tt)
  /\ astimezone_utc (eastern_daylight 2024 6 3 0 0 0)
     = Returned (utc_time 2024 6 3 4 0 0)
  /\ scan_at_or_after (utc_time 2024 6 3 4 0 0) revs None = None
  /\ find_best_revision 1 (one_page_drive revs) SOURCE_SPREADSHEET_ID
       (eastern_daylight 2024 6 3 0 0 0) tt
     = (Returned (Some "late"), tt).
Proof.
  intros revs.
  apply (find_best_revision_june_2024 unit (one_page_drive revs) 1%nat tt tt
           "early" "late").
  reflexivity.
Defined.

(** ** C8 *)

(** C8, as the claim states it, fails in two ways.  An error of the
    transport that is not an [HttpError] (here a timeout) is not turned into
    none: it leaves the resolver as an exception.  And a non-empty listing
    does not always give an identifier: for the target 9999-12-31 22:00:00
    at UTC-5 the conversion to UTC leaves year 9999 and [OverflowError] is
    raised. *)
Lemma find_best_revision_raises_instead_of_none :
  find_best_revision 1 (failing_drive (OtherException "timed out"))
    SOURCE_SPREADSHEET_ID (eastern_daylight 2024 6 2 22 0 0) tt
  = (Raised (OtherException "timed out"), tt)
  /\ find_best_revision 1
       (one_page_drive [mkRevision "only" (utc_time 2024 6 3 1 55 0)])
       SOURCE_SPREADSHEET_ID (mkAware (mkNaive 9999 12 31 22 0 0 0) EST) tt
     = (Raised (OverflowError "date value out of range"), tt).
Proof. split; reflexivity. Qed.

(** C8. The resolver answers none exactly when the listing came back
    empty or raised [HttpError]; any other exception of the listing leaves
    the resolver as raised; and on a non-empty listing fetched without error
    it answers with the identifier of a listed revision when the target
    converts to UTC, and raises what the conversion raises when it does
    not. *)
Theorem find_best_revision_none_iff :
  forall (World : Type) (drive : drive_service World) (fuel : nat)
         (file_id : string) (target_time : aware) (w w' : World),
  (forall revs target_utc,
     list_all_pages fuel drive file_id [] None w = (Returned revs, w') ->
     revs <> [] ->
     astimezone_utc target_time = Returned target_utc ->
     exists r, In r revs
               /\ find_best_revision fuel drive file_id target_time w
                  = (Returned (Some (rev_id r)), w'))
  /\ (list_all_pages fuel drive file_id [] None w = (Returned [], w') ->
      find_best_revision fuel drive file_id target_time w = (Returned None, w'))
  /\ (forall reason,
        list_all_pages fuel drive file_id [] None w
        = (Raised (HttpError reason), w') ->
        find_best_revision fuel drive file_id target_time w = (Returned None, w'))
  /\ (find_best_revision fuel drive file_id target_time w = (Returned None, w') ->
      list_all_pages fuel drive file_id [] None w = (Returned [], w')
      \/ exists reason,
           list_all_pages fuel drive file_id [] None w
           = (Raised (HttpError reason), w'))
  /\ (forall e,
        is_http_error e = false ->
        list_all_pages fuel drive file_id [] None w = (Raised e, w') ->
        find_best_revision fuel drive file_id target_time w = (Raised e, w'))
  /\ (forall revs e,
        list_all_pages fuel drive file_id [] None w = (Returned revs, w') ->
        revs <> [] ->
        astimezone_utc target_time = Raised e ->
        find_best_revision fuel drive file_id target_time w = (Raised e, w')).
Proof.
  intros World drive fuel file_id target_time w w'.
  rewrite find_best_revision_run.
  split; [|split; [|split; [|split; [|split]]]].
  - intros revs target_utc Hlist Hne Hconv. rewrite Hlist, Hconv.
    destruct (select_revision_nonempty target_utc revs Hne) as (r & Hin & Hsel).
    exists r. split; [exact Hin|]. rewrite Hsel.
    destruct revs; [contradiction | reflexivity].
  - intros Hlist. rewrite Hlist. reflexivity.
  - intros reason Hlist. rewrite Hlist. reflexivity.
  - destruct (list_all_pages fuel drive file_id [] None w) as [[revs | e |] w1].
    + destruct revs as [|x revs].
      * intros H. inversion H; subst. left. reflexivity.
      * cbn [nonempty].
        destruct (astimezone_utc target_time) as [u | e |].
        -- destruct (select_revision_nonempty u (x :: revs)) as (r & _ & Hsel);
             [discriminate|].
           rewrite Hsel. intros H. discriminate H.
        -- intros H. discriminate H.
        -- intros H. discriminate H.
    + destruct e; intros H; try discriminate H.
      inversion H; subst. right. eexists. reflexivity.
    + intros H. discriminate H.
  - intros e He Hlist. rewrite Hlist. destruct e; [discriminate He | | |]; reflexivity.
  - intros revs e Hlist Hne Hconv. rewrite Hlist, Hconv.
    destruct revs; [contradiction | reflexivity].
Qed.

Lemma find_best_revision_none_iff_witness :
  (exists r, In r [mkRevision "only" (utc_time 2024 6 3 1 55 0)]
             /\ find_best_revision 1
                  (one_page_drive [mkRevision "only" (utc_time 2024 6 3 1 55 0)])
                  SOURCE_SPREADSHEET_ID (eastern_daylight 2024 6 2 22 0 0) tt
                = (Returned (Some (rev_id r)), tt))
  /\ find_best_revision 1 (one_page_drive []) SOURCE_SPREADSHEET_ID
       (eastern_daylight 2024 6 2 22 0 0) tt = (Returned None, tt)
  /\ find_best_revision 1 (failing_drive (HttpError "503"))
       SOURCE_SPREADSHEET_ID (eastern_daylight 2024 6 2 22 0 0) tt
     = (Returned None, tt)
  /\ find_best_revision 1 (failing_drive (OtherException "timed out"))
       SOURCE_SPREADSHEET_ID (eastern_daylight 2024 6 2 22 0 0) tt
     = (Raised (OtherException "timed out"), tt)
  /\ find_best_revision 1
       (one_page_drive [mkRevision "only" (utc_time 2024 6 3 1 55 0)])
       SOURCE_SPREADSHEET_ID (mkAware (mkNaive 1 1 1 0 0 0 0) 18000) tt
     = (Raised (OverflowError "date value out of range"), tt).
Proof.
  split; [|split; [|split; [|split]]].
  - apply (find_best_revision_none_iff unit
             (one_page_drive [mkRevision "only" (utc_time 2024 6 3 1 55 0)])
             1%nat SOURCE_SPREADSHEET_ID (eastern_daylight 2024 6 2 22 0 0) tt tt)
      with (target_utc := utc_time 2024 6 3 2 0 0).
    + reflexivity.
    + discriminate.
    + reflexivity.
  - apply (find_best_revision_none_iff unit (one_page_drive [])
             1%nat SOURCE_SPREADSHEET_ID (eastern_daylight 2024 6 2 22 0 0) tt tt).
    reflexivity.
  - apply (find_best_revision_none_iff unit (failing_drive (HttpError "503"))
             1%nat SOURCE_SPREADSHEET_ID (eastern_daylight 2024 6 2 22 0 0) tt tt
          ) with (reason := "503").
    reflexivity.
  - apply (find_best_revision_none_iff unit
             (failing_drive (OtherException "timed out"))
             1%nat SOURCE_SPREADSHEET_ID (eastern_daylight 2024 6 2 22 0 0) tt tt).
    + reflexivity.
    + reflexivity.
  - apply (find_best_revision_none_iff unit
             (one_page_drive [mkRevision "only" (utc_time 2024 6 3 1 55 0)])
             1%nat SOURCE_SPREADSHEET_ID (mkAware (mkNaive 1 1 1 0 0 0 0) 18000)
             tt tt)
      with (revs := [mkRevision "only" (utc_time 2024 6 3 1 55 0)]).
    + reflexivity.
    + discriminate.
    + reflexivity.
Defined.

(* ================================================================== *)
(** * The accumulator *)

Lemma dt_eq_refl (k : aware) : dt_eq k k = true.
Proof. apply Z.eqb_refl. Qed.

Lemma dt_eq_sym (a b : aware) : dt_eq a b = dt_eq b a.
Proof. apply Z.eqb_sym. Qed.

Lemma dict_get_set_same (k : aware) (v : grid) (d : dict) :
  dict_get k (dict_set k v d) = Some v.
Proof.
  induction d as [|[k0 v0] d IH]; cbn.
  - rewrite dt_eq_refl. reflexivity.
  - destruct (dt_eq k0 k) eqn:E; cbn; rewrite E; [reflexivity | exact IH].
Qed.

Lemma dict_get_set_other (k k' : aware) (v : grid) (d : dict) :
  dt_eq k' k = false ->
  dict_get k (dict_set k' v d) = dict_get k d.
Proof.
  intros Hne. induction d as [|[k0 v0] d IH]; cbn.
  - rewrite Hne. reflexivity.
  - destruct (dt_eq k0 k') eqn:E; cbn.
    + destruct (dt_eq k0 k) eqn:E'; [|reflexivity].
      unfold dt_eq in *. apply Z.eqb_eq in E, E'. apply Z.eqb_neq in Hne.
      congruence.
    + rewrite IH. reflexivity.
Qed.

Lemma dict_get_present (k : aware) (d : dict) :
  In (utc_micros k) (map key_micros d) <-> exists v, dict_get k d = Some v.
Proof.
  induction d as [|[k0 v0] d IH]; cbn.
  - split; [intros [] | intros [? H]; discriminate H].
  - unfold key_micros at 1. cbn [fst].
    destruct (dt_eq k0 k) eqn:E; unfold dt_eq in E.
    + apply Z.eqb_eq in E. split; [eauto | auto].
    + apply Z.eqb_neq in E. rewrite <- IH. tauto.
Qed.

(** Setting a key either rewrites the value of an equal key in place or
    appends a fresh entry. *)
Lemma dict_set_keys (k : aware) (v : grid) (d : dict) :
  (In (utc_micros k) (map key_micros d)
   /\ map fst (dict_set k v d) = map fst d)
  \/ (~ In (utc_micros k) (map key_micros d)
      /\ map fst (dict_set k v d) = map fst d ++ [k]).
Proof.
  induction d as [|[k0 v0] d IH]; cbn.
  - right. split; [tauto | reflexivity].
  - unfold key_micros at 1 3. cbn [fst].
    destruct (dt_eq k0 k) eqn:E; unfold dt_eq in E; cbn.
    + apply Z.eqb_eq in E. left. split; [auto | reflexivity].
    + apply Z.eqb_neq in E.
      destruct IH as [[Hin Heq] | [Hnin Heq]]; rewrite Heq.
      * left. split; [auto | reflexivity].
      * right. split; [tauto | reflexivity].
Qed.

Lemma map_key_micros (d : dict) :
  map key_micros d = map utc_micros (map fst d).
Proof. rewrite map_map. reflexivity. Qed.

Lemma dict_ok_keys (d : dict) :
  dict_ok d <-> NoDup (map utc_micros (map fst d)).
Proof. unfold dict_ok. rewrite map_map. reflexivity. Qed.

Lemma dict_set_ok (k : aware) (v : grid) (d : dict) :
  dict_ok d -> dict_ok (dict_set k v d).
Proof.
  intros Hok. apply dict_ok_keys in Hok. apply dict_ok_keys.
  destruct (dict_set_keys k v d) as [[_ Heq] | [Hnin Heq]]; rewrite Heq.
  - exact Hok.
  - rewrite map_app. cbn [map].
    rewrite map_key_micros in Hnin.
    eapply Permutation_NoDup.
    + apply Permutation_cons_append.
    + constructor; assumption.
Qed.

Lemma dict_set_keys_incl (k : aware) (v : grid) (d : dict) (x : aware) :
  In x (map fst (dict_set k v d)) -> x = k \/ In x (map fst d).
Proof.
  destruct (dict_set_keys k v d) as [[_ Heq] | [_ Heq]]; rewrite Heq.
  - auto.
  - intros H. apply in_app_or in H. destruct H as [H | [H | []]]; auto.
Qed.

(* ================================================================== *)
(** * Snapshot reader and orchestrator loop *)

Section LoopFacts.
Context {World : Type}.
Variable drive : drive_service World.
Variable sheets : sheets_service World.

(** What [read_sheet_data] does with each outcome of the API read. *)
Lemma read_sheet_data_run (spreadsheet_id range_name : string) (w : World) :
  read_sheet_data sheets spreadsheet_id range_name w =
  match values_get sheets (mkGetRequest spreadsheet_id range_name) w with
  | (Returned resp, w') => (Returned (get_default (values resp) []), w')
  | (Raised (HttpError _), w') => (Returned [], w')
  | (Raised e, w') => (Raised e, w')
  | (OutOfFuel, w') => (OutOfFuel, w')
  end.
Proof.
  unfold read_sheet_data, try_except_HttpError, bind, ret.
  destruct (values_get sheets _ w) as [[resp | e |] w']; try reflexivity.
  destruct e; reflexivity.
Qed.

(** With a truthy identifier the loop body stores whatever the read of
    the fixed source range returned. *)
Lemma store_snapshot_truthy (rid : option string) (date : aware)
    (acc : dict) (w : World) :
  truthy rid = true ->
  store_snapshot sheets rid date acc w =
  match read_sheet_data sheets SOURCE_SPREADSHEET_ID SOURCE_RANGE w with
  | (Returned data, w') => (Returned (dict_set date data acc), w')
  | (Raised e, w') => (Raised e, w')
  | (OutOfFuel, w') => (OutOfFuel, w')
  end.
Proof.
  intros Ht. unfold store_snapshot. rewrite Ht. unfold bind, ret.
  fold SOURCE_RANGE.
  destruct (read_sheet_data sheets SOURCE_SPREADSHEET_ID SOURCE_RANGE w)
    as [[data | e |] w']; try reflexivity.
  destruct data; reflexivity.
Qed.

Lemma store_snapshot_falsy (rid : option string) (date : aware)
    (acc : dict) (w : World) :
  truthy rid = false ->
  store_snapshot sheets rid date acc w = (Returned (dict_set date [] acc), w).
Proof. intros Hf. unfold store_snapshot. rewrite Hf. reflexivity. Qed.

(** Every completed loop body sets the entry of its date, and nothing
    else. *)
Lemma store_snapshot_returned (rid : option string) (date : aware)
    (acc acc' : dict) (w w' : World) :
  store_snapshot sheets rid date acc w = (Returned acc', w') ->
  exists rows, acc' = dict_set date rows acc.
Proof.
  destruct (truthy rid) eqn:Ht.
  - rewrite store_snapshot_truthy by exact Ht.
    destruct (read_sheet_data _ _ _ _) as [[data | e |] w1];
      intros H; inversion H; subst. eauto.
  - rewrite store_snapshot_falsy by exact Ht.
    intros H; inversion H; subst. eauto.
Qed.

Lemma main_loop_cons (fuel : nat) (date : aware) (rest : list aware)
    (acc : dict) (w : World) :
  main_loop fuel drive sheets (date :: rest) acc w =
  match loop_body drive sheets fuel date acc w with
  | (Returned acc1, w1) => main_loop fuel drive sheets rest acc1 w1
  | (Raised e, w1) => (Raised e, w1)
  | (OutOfFuel, w1) => (OutOfFuel, w1)
  end.
Proof.
  cbn [main_loop]. unfold loop_body, bind.
  destruct (find_best_revision fuel drive SOURCE_SPREADSHEET_ID date w)
    as [[rid | e |] w1]; reflexivity.
Qed.

Lemma loop_body_returned (fuel : nat) (date : aware) (acc acc' : dict)
    (w w' : World) :
  loop_body drive sheets fuel date acc w = (Returned acc', w') ->
  exists rows, acc' = dict_set date rows acc.
Proof.
  unfold loop_body, bind.
  destruct (find_best_revision fuel drive SOURCE_SPREADSHEET_ID date w)
    as [[rid | e |] w1]; try discriminate.
  apply store_snapshot_returned.
Qed.

(** The loop over a concatenation runs the first part, then the
    second. *)
Lemma main_loop_app (fuel : nat) (l1 l2 : list aware) :
  forall acc w,
  main_loop fuel drive sheets (l1 ++ l2) acc w =
  match main_loop fuel drive sheets l1 acc w with
  | (Returned acc1, w1) => main_loop fuel drive sheets l2 acc1 w1
  | (Raised e, w1) => (Raised e, w1)
  | (OutOfFuel, w1) => (OutOfFuel, w1)
  end.
Proof.
  induction l1 as [|d l1 IH]; intros acc w.
  - reflexivity.
  - cbn [app]. rewrite !main_loop_cons.
    destruct (loop_body drive sheets fuel d acc w) as [[acc1 | e |] w1]; try reflexivity.
    apply IH.
Qed.

(** What a completed loop does to the accumulator it started from. *)
Lemma main_loop_invariant (fuel : nat) (dates : list aware) :
  forall acc w acc' w',
  main_loop fuel drive sheets dates acc w = (Returned acc', w') ->
  (dict_ok acc -> dict_ok acc')
  /\ (forall k, In k (map fst acc') -> In k (map fst acc) \/ In k dates)
  /\ (forall k, In (utc_micros k) (map key_micros acc) ->
                In (utc_micros k) (map key_micros acc'))
  /\ (forall d, In d dates -> In (utc_micros d) (map key_micros acc'))
  /\ (forall k, (forall d, In d dates -> dt_eq d k = false) ->
                dict_get k acc' = dict_get k acc).
Proof.
  induction dates as [|d dates IH]; intros acc w acc' w' Hrun.
  - cbn in Hrun. inversion Hrun; subst.
    repeat split; auto. intros ? [].
  - rewrite main_loop_cons in Hrun.
    destruct (loop_body drive sheets fuel d acc w) as [[acc1 | e |] w1] eqn:Hbody;
      try discriminate.
    apply loop_body_returned in Hbody. destruct Hbody as [rows ->].
    destruct (IH _ _ _ _ Hrun) as (Hok & Hkeys & Hmono & Hall & Hget).
    assert (Hset : forall k, In (utc_micros k) (map key_micros acc) ->
               In (utc_micros k) (map key_micros (dict_set d rows acc))).
    { intros k Hk. apply dict_get_present. apply dict_get_present in Hk.
      destruct (dt_eq d k) eqn:E.
      - unfold dt_eq in E. apply Z.eqb_eq in E.
        apply dict_get_present. rewrite <- E. apply dict_get_present.
        rewrite dict_get_set_same. eauto.
      - rewrite dict_get_set_other by exact E. exact Hk. }
    repeat split.
    + intros H. apply Hok. apply dict_set_ok. exact H.
    + intros k Hk. destruct (Hkeys k Hk) as [Hk' | Hk'].
      * apply dict_set_keys_incl in Hk'. cbn [In].
        destruct Hk' as [-> | Hk']; auto.
      * right. right. exact Hk'.
    + intros k Hk. apply Hmono. apply Hset. exact Hk.
    + intros x [<- | Hx].
      * apply Hmono. apply dict_get_present.
        rewrite dict_get_set_same. eauto.
      * apply Hall. exact Hx.
    + intros k Hk. rewrite Hget by (intros; apply Hk; right; assumption).
      apply dict_get_set_other. apply Hk. left. reflexivity.
Qed.

(** When the target dates are pairwise distinct instants, none of them
    already a key, the loop appends them to the keys in order. *)
Lemma main_loop_keys (fuel : nat) (dates : list aware) :
  forall acc w acc' w',
  main_loop fuel drive sheets dates acc w = (Returned acc', w') ->
  NoDup (map key_micros acc ++ map utc_micros dates) ->
  map fst acc' = map fst acc ++ dates.
Proof.
  induction dates as [|d dates IH]; intros acc w acc' w' Hrun Hnd.
  - cbn in Hrun. inversion Hrun; subst. rewrite app_nil_r. reflexivity.
  - rewrite main_loop_cons in Hrun.
    destruct (loop_body drive sheets fuel d acc w) as [[acc1 | e |] w1] eqn:Hbody;
      try discriminate.
    apply loop_body_returned in Hbody. destruct Hbody as [rows ->].
    cbn [map] in Hnd.
    assert (Hfresh : ~ In (utc_micros d) (map key_micros acc)).
    { intros Hin. apply NoDup_remove_2 in Hnd. apply Hnd.
      apply in_or_app. left. exact Hin. }
    destruct (dict_set_keys d rows acc) as [[Hin _] | [_ Heq]];
      [contradiction|].
    rewrite (IH _ _ _ _ Hrun).
    + rewrite Heq, <- app_assoc. reflexivity.
    + rewrite map_key_micros, Heq, map_app, <- map_key_micros.
      cbn [map]. rewrite <- app_assoc. exact Hnd.
Qed.

End LoopFacts.

(** ** C3 *)

(** The resolver can answer with an empty identifier (an opaque string);
    the loop tests the identifier for truth, so no read happens and the
    stored grid is empty, while any other identifier stores the live
    grid. *)
Lemma store_snapshot_empty_identifier_differs :
  let date := eastern_daylight 2024 6 3 22 0 0 in
  let live := [["cell"]] in
  store_snapshot live_sheets (Some "") date [] live
  = (Returned [(date, [])], live)
  /\ store_snapshot live_sheets (Some "rev") date [] live
     = (Returned [(date, live)], live)
  /\ store_snapshot live_sheets (Some "") date [] live
     <> store_snapshot live_sheets (Some "rev") date [] live.
Proof.
  cbv zeta. split; [reflexivity | split; [reflexivity | discriminate]].
Qed.

(** C3 (amended). Whenever the resolver returns a non-empty identifier,
    the loop body issues the one read request for range [Edit!A:L] of the
    source spreadsheet, which does not mention the identifier, and stores
    what that read returns; so for any two non-empty identifiers over the
    same world the outcome, stored grid included, is identical.  With the
    empty identifier nothing is read: the world is left as it was and the
    stored grid is empty. *)
Theorem store_snapshot_ignores_identifier :
  forall (World : Type) (sheets : sheets_service World) (r1 r2 : string)
         (date : aware) (acc : dict) (w : World),
  r1 <> "" -> r2 <> "" ->
  store_snapshot sheets (Some r1) date acc w
  = store_snapshot sheets (Some r2) date acc w
  /\ store_snapshot sheets (Some r1) date acc w
     = match values_get sheets
               (mkGetRequest SOURCE_SPREADSHEET_ID "Edit!A:L") w with
       | (Returned resp, w') =>
           (Returned (dict_set date (get_default (values resp) []) acc), w')
       | (Raised (HttpError _), w') => (Returned (dict_set date [] acc), w')
       | (Raised e, w') => (Raised e, w')
       | (OutOfFuel, w') => (OutOfFuel, w')
       end
  /\ store_snapshot sheets (Some "") date acc w
     = (Returned (dict_set date [] acc), w).
Proof.
  intros World sheets r1 r2 date acc w H1 H2.
  assert (T1 : truthy (Some r1) = true).
  { cbn. apply String.eqb_neq in H1. rewrite H1. reflexivity. }
  assert (T2 : truthy (Some r2) = true).
  { cbn. apply String.eqb_neq in H2. rewrite H2. reflexivity. }
  rewrite (store_snapshot_falsy sheets (Some "")) by reflexivity.
  rewrite !store_snapshot_truthy by assumption.
  split; [reflexivity|]. split; [|reflexivity].
  rewrite read_sheet_data_run.
  change (mkGetRequest SOURCE_SPREADSHEET_ID SOURCE_RANGE)
    with (mkGetRequest SOURCE_SPREADSHEET_ID "Edit!A:L").
  destruct (values_get sheets _ w) as [[resp | e |] w']; try reflexivity.
  destruct e; reflexivity.
Qed.

Lemma store_snapshot_ignores_identifier_witness :
  let date := eastern_daylight 2024 6 3 22 0 0 in
  store_snapshot live_sheets (Some "17") date [] [["cell"]]
  = store_snapshot live_sheets (Some "42") date [] [["cell"]]
  /\ store_snapshot live_sheets (Some "17") date [] [["cell"]]
     = (Returned (dict_set date [["cell"]] []), [["cell"]])
  /\ store_snapshot live_sheets (Some "") date [] [["cell"]]
     = (Returned (dict_set date [] []), [["cell"]]).
Proof.
  intros date.
  apply (store_snapshot_ignores_identifier grid live_sheets "17" "42" date []
           [["cell"]]); discriminate.
Defined.

(** ** C6 *)

(** C6. After a completed loop started on the empty accumulator: no two
    entries have the same instant, every key is a generated target, every
    generated target has an entry, and for pairwise distinct targets the
    keys are exactly the targets in order.  For a target that does not
    recur later in the list, the entry is the empty grid whenever the
    resolver answered none at that iteration or the read of that iteration
    returned no data; after a truthy answer it is the grid that was read. *)
Theorem main_loop_accumulator :
  forall (World : Type) (drive : drive_service World)
         (sheets : sheets_service World) (fuel : nat) (dates : list aware)
         (w w' : World) (acc : dict),
  main_loop fuel drive sheets dates [] w = (Returned acc, w') ->
  dict_ok acc
  /\ (forall k, In k (map fst acc) -> In k dates)
  /\ (forall d, In d dates -> exists rows, dict_get d acc = Some rows)
  /\ (NoDup (map utc_micros dates) -> map fst acc = dates)
  /\ (forall pre d post,
        dates = pre ++ d :: post ->
        (forall d', In d' post -> dt_eq d' d = false) ->
        exists acc1 w1 rid w2,
          main_loop fuel drive sheets pre [] w = (Returned acc1, w1)
          /\ find_best_revision fuel drive SOURCE_SPREADSHEET_ID d w1
             = (Returned rid, w2)
          /\ (rid = None -> dict_get d acc = Some [])
          /\ (forall w3,
                read_sheet_data sheets SOURCE_SPREADSHEET_ID SOURCE_RANGE w2
                = (Returned [], w3) ->
                dict_get d acc = Some [])
          /\ (truthy rid = true ->
              exists data w3,
                read_sheet_data sheets SOURCE_SPREADSHEET_ID SOURCE_RANGE w2
                = (Returned data, w3)
                /\ dict_get d acc = Some data)).
Proof.
  intros World drive sheets fuel dates w w' acc Hrun.
  destruct (main_loop_invariant drive sheets fuel dates _ _ _ _ Hrun)
    as (Hok & Hkeys & _ & Hall & _).
  split; [apply Hok; constructor|].
  split; [intros k Hk; destruct (Hkeys k Hk) as [[] | H]; exact H|].
  split; [intros d Hd; apply dict_get_present, Hall, Hd|].
  split; [intros Hnd; apply (main_loop_keys drive sheets fuel dates _ _ _ _ Hrun);
          exact Hnd|].
  intros pre d post -> Hlater.
  rewrite main_loop_app in Hrun.
  destruct (main_loop fuel drive sheets pre [] w) as [[acc1 | e |] w1] eqn:Hpre;
    try discriminate.
  rewrite main_loop_cons in Hrun. unfold loop_body, bind in Hrun.
  destruct (find_best_revision fuel drive SOURCE_SPREADSHEET_ID d w1)
    as [[rid | e |] w2] eqn:Hfind; try discriminate.
  destruct (store_snapshot sheets rid d acc1 w2) as [[acc2 | e |] w3] eqn:Hstore;
    try discriminate.
  destruct (main_loop_invariant drive sheets fuel post _ _ _ _ Hrun)
    as (_ & _ & _ & _ & Hget).
  rewrite (Hget d Hlater).
  exists acc1, w1, rid, w2.
  split; [reflexivity|]. split; [exact Hfind|].
  destruct (truthy rid) eqn:Ht.
  - rewrite store_snapshot_truthy in Hstore by exact Ht.
    destruct (read_sheet_data sheets SOURCE_SPREADSHEET_ID SOURCE_RANGE w2)
      as [[data | e |] w4]; try discriminate.
    inversion Hstore; subst.
    rewrite dict_get_set_same.
    split; [intros ->; discriminate Ht|].
    split; [intros w5 H5; inversion H5; reflexivity|].
    intros _. exists data, w3. split; reflexivity.
  - rewrite store_snapshot_falsy in Hstore by exact Ht.
    inversion Hstore; subst.
    rewrite dict_get_set_same.
    split; [reflexivity|]. split; [reflexivity|]. discriminate.
Qed.

(** Two dates over a Drive with no revisions: both get an empty entry. *)
Lemma main_loop_accumulator_witness :
  let d1 := eastern_daylight 2024 6 3 22 0 0 in
  let d2 := eastern_daylight 2024 6 4 22 0 0 in
  dict_ok [(d1, []); (d2, [])]
  /\ (forall k, In k (map fst [(d1, [] : grid); (d2, [])]) -> In k [d1; d2])
  /\ (forall d, In d [d1; d2] ->
                exists rows, dict_get d [(d1, []); (d2, [])] = Some rows).
Proof.
  intros d1 d2.
  pose proof (main_loop_accumulator unit (one_page_drive [])
                (flaky_sheets_unit (HttpError "500")) 1%nat [d1; d2] tt tt
                [(d1, []); (d2, [])] eq_refl) as H.
  destruct H as (H1 & H2 & H3 & _).
  split; [exact H1 | split; [exact H2 | exact H3]].
Defined.

(* ================================================================== *)
(** * Archive writer: the two remote steps *)

Section WriterRuns.
Context {World : Type}.
Variable sheets : sheets_service World.

(** The clear step returns whatever the API call did, short of not
    coming back at all. *)
Lemma clear_destination_run (w : World) :
  clear_destination sheets w =
  match values_clear sheets clear_request_sent w with
  | (Returned _, w') => (Returned tt, w')
  | (Raised _, w') => (Returned tt, w')
  | (OutOfFuel, w') => (OutOfFuel, w')
  end.
Proof.
  unfold clear_destination, try_except_all, bind, ret.
  change (mkClearRequest DEST_SPREADSHEET_ID (DEST_SHEET_NAME ++ "!A:L")%string)
    with clear_request_sent.
  destruct (values_clear sheets clear_request_sent w) as [[[] | e |] w'];
    reflexivity.
Qed.

(** The write step issues the bulk update with the given rows. *)
Lemma write_destination_run (all_values : grid) (w : World) :
  write_destination sheets all_values w =
  match values_update sheets (update_request_sent all_values) w with
  | (Returned _, w') => (Returned tt, w')
  | (Raised (HttpError _), w') => (Returned tt, w')
  | (Raised e, w') => (Raised e, w')
  | (OutOfFuel, w') => (OutOfFuel, w')
  end.
Proof.
  unfold write_destination, try_except_HttpError, bind, ret.
  change (mkUpdateRequest DEST_SPREADSHEET_ID (DEST_SHEET_NAME ++ "!A1")%string
            "USER_ENTERED" all_values)
    with (update_request_sent all_values).
  destruct (values_update sheets (update_request_sent all_values) w)
    as [[resp | e |] w']; try reflexivity.
  destruct e; reflexivity.
Qed.

End WriterRuns.

(** ** C9 *)

(** C9, as the claim states it, fails for the read: an error of the
    transport that is not an [HttpError] (here a timeout) leaves
    [read_sheet_data] as an exception instead of an empty grid, and with it
    the loop and the whole run, which ends before anything is written. *)
Lemma read_sheet_data_transport_error_aborts :
  let sheets := flaky_sheets_unit (OtherException "timed out") in
  let drive := one_page_drive [mkRevision "rev" (utc_time 2024 6 3 2 5 0)] in
  let date := eastern_daylight 2024 6 3 22 0 0 in
  let now := mkNaive 2024 9 1 12 0 0 0 in
  read_sheet_data sheets SOURCE_SPREADSHEET_ID "Edit!A:L" tt
  = (Raised (OtherException "timed out"), tt)
  /\ main_loop 1 drive sheets [date] [] tt
     = (Raised (OtherException "timed out"), tt)
  /\ main 92 (fixed_offset EDT) now drive sheets 2024 tt
     = (Raised (OtherException "timed out"), tt).
Proof.
  cbv zeta. split; [reflexivity | split; [reflexivity|]].
  vm_compute. reflexivity.
Qed.

(** C9. When the API read raises [HttpError], [read_sheet_data] returns
    the empty grid and the loop body stores an empty entry and returns
    normally; when it raises anything else, the reader and the loop body
    raise it.  When the clear of the destination raises any exception,
    [append_to_destination] goes on to the bulk write from the world the
    failed clear left: its outcome is that of the write step, which sends
    the update request carrying the full row matrix. *)
Theorem read_and_clear_errors_do_not_abort :
  forall (World : Type) (sheets : sheets_service World),
  (forall spreadsheet_id range_name w w' reason,
     values_get sheets (mkGetRequest spreadsheet_id range_name) w
     = (Raised (HttpError reason), w') ->
     read_sheet_data sheets spreadsheet_id range_name w = (Returned [], w'))
  /\ (forall rid date acc w w' reason,
        truthy rid = true ->
        values_get sheets (mkGetRequest SOURCE_SPREADSHEET_ID "Edit!A:L") w
        = (Raised (HttpError reason), w') ->
        store_snapshot sheets rid date acc w
        = (Returned (dict_set date [] acc), w'))
  /\ (forall now all_data w w1 e,
        values_clear sheets clear_request_sent w = (Raised e, w1) ->
        append_to_destination sheets now all_data w
        = write_destination sheets (build_all_values now all_data) w1
        /\ write_destination sheets (build_all_values now all_data) w1
           = match values_update sheets
                     (update_request_sent (build_all_values now all_data)) w1
             with
             | (Returned _, w2) => (Returned tt, w2)
             | (Raised (HttpError _), w2) => (Returned tt, w2)
             | (Raised e', w2) => (Raised e', w2)
             | (OutOfFuel, w2) => (OutOfFuel, w2)
             end)
  /\ (forall spreadsheet_id range_name w w' e,
        is_http_error e = false ->
        values_get sheets (mkGetRequest spreadsheet_id range_name) w
        = (Raised e, w') ->
        read_sheet_data sheets spreadsheet_id range_name w = (Raised e, w'))
  /\ (forall rid date acc w w' e,
        truthy rid = true ->
        is_http_error e = false ->
        values_get sheets (mkGetRequest SOURCE_SPREADSHEET_ID "Edit!A:L") w
        = (Raised e, w') ->
        store_snapshot sheets rid date acc w = (Raised e, w')).
Proof.
  intros World sheets. split; [|split; [|split; [|split]]].
  - intros spreadsheet_id range_name w w' reason Hget.
    rewrite read_sheet_data_run, Hget. reflexivity.
  - intros rid date acc w w' reason Ht Hget.
    rewrite store_snapshot_truthy by exact Ht.
    rewrite read_sheet_data_run.
    change (mkGetRequest SOURCE_SPREADSHEET_ID SOURCE_RANGE)
      with (mkGetRequest SOURCE_SPREADSHEET_ID "Edit!A:L").
    rewrite Hget. reflexivity.
  - intros now all_data w w1 e Hclear. split.
    + unfold append_to_destination, bind.
      rewrite clear_destination_run, Hclear. reflexivity.
    + apply write_destination_run.
  - intros spreadsheet_id range_name w w' e He Hget.
    rewrite read_sheet_data_run, Hget.
    destruct e; [discriminate He | | |]; reflexivity.
  - intros rid date acc w w' e Ht He Hget.
    rewrite store_snapshot_truthy by exact Ht.
    rewrite read_sheet_data_run.
    change (mkGetRequest SOURCE_SPREADSHEET_ID SOURCE_RANGE)
      with (mkGetRequest SOURCE_SPREADSHEET_ID "Edit!A:L").
    rewrite Hget.
    destruct e; [discriminate He | | |]; reflexivity.
Qed.

(** Reads fail with [HttpError], the clear fails with another exception,
    and the bulk write still goes through once; a read that fails with
    another exception raises it. *)
Lemma read_and_clear_errors_do_not_abort_witness :
  let sheets := flaky_sheets (HttpError "500") (OtherException "timeout") in
  let date := eastern_daylight 2024 6 3 22 0 0 in
  let now := mkNaive 2024 9 1 12 0 0 0 in
  read_sheet_data sheets SOURCE_SPREADSHEET_ID "Edit!A:L" 0%nat
  = (Returned [], 0%nat)
  /\ store_snapshot sheets (Some "rev") date [] 0%nat
     = (Returned (dict_set date [] []), 0%nat)
  /\ append_to_destination sheets now [(date, [])] 0%nat
     = (Returned tt, 1%nat)
  /\ read_sheet_data (flaky_sheets_unit (OtherException "timed out"))
       SOURCE_SPREADSHEET_ID "Edit!A:L" tt
     = (Raised (OtherException "timed out"), tt)
  /\ store_snapshot (flaky_sheets_unit (OtherException "timed out"))
       (Some "rev") date [] tt
     = (Raised (OtherException "timed out"), tt).
Proof.
  intros sheets date now.
  destruct (read_and_clear_errors_do_not_abort nat sheets)
    as (Hread & Hstore & Hclear & _).
  destruct (read_and_clear_errors_do_not_abort unit
              (flaky_sheets_unit (OtherException "timed out")))
    as (_ & _ & _ & Hread' & Hstore').
  split; [|split; [|split; [|split]]].
  - apply (Hread SOURCE_SPREADSHEET_ID "Edit!A:L" 0%nat 0%nat "500"). reflexivity.
  - apply (Hstore (Some "rev") date [] 0%nat 0%nat "500"); reflexivity.
  - destruct (Hclear now [(date, [])] 0%nat 0%nat (OtherException "timeout") eq_refl)
      as [Happend Hwrite].
    rewrite Happend, Hwrite. reflexivity.
  - apply (Hread' SOURCE_SPREADSHEET_ID "Edit!A:L" tt tt); reflexivity.
  - apply (Hstore' (Some "rev") date [] tt tt); reflexivity.
Defined.

(* ================================================================== *)
(** * Archive writer: sorting and layout *)

Lemma insert_item_perm (x : aware * grid) (l : list (aware * grid)) :
  Permutation (insert_item x l) (x :: l).
Proof.
  induction l as [|y l IH]; cbn.
  - reflexivity.
  - destruct (item_ltb x y); [reflexivity|].
    rewrite IH. apply perm_swap.
Qed.

Lemma fold_insert_perm (l : list (aware * grid)) :
  forall acc,
  Permutation (fold_left (fun acc x => insert_item x acc) l acc) (acc ++ l).
Proof.
  induction l as [|x l IH]; intros acc; cbn.
  - rewrite app_nil_r. reflexivity.
  - rewrite IH, insert_item_perm. apply Permutation_middle.
Qed.

(** [sorted] rearranges, it neither drops nor duplicates an entry. *)
Lemma sorted_perm (l : list (aware * grid)) : Permutation (sorted l) l.
Proof. apply (fold_insert_perm l []). Qed.

(** On entries with different keys the tuple comparison is the
    comparison of the keys. *)
Lemma item_ltb_keys (x y : aware * grid) :
  key_micros x <> key_micros y ->
  item_ltb x y = (key_micros x <? key_micros y).
Proof.
  unfold item_ltb, dt_eq, dt_lt, key_micros. intros Hne.
  apply Z.eqb_neq in Hne. rewrite Hne. reflexivity.
Qed.

Lemma insert_item_sorted (x : aware * grid) (l : list (aware * grid)) :
  StronglySorted key_lt l ->
  ~ In (key_micros x) (map key_micros l) ->
  StronglySorted key_lt (insert_item x l).
Proof.
  induction l as [|y l IH]; intros Hs Hfresh; cbn.
  - repeat constructor.
  - apply StronglySorted_inv in Hs. destruct Hs as [Hs Hy].
    cbn in Hfresh.
    rewrite item_ltb_keys by (intros E; apply Hfresh; left; symmetry; exact E).
    destruct (key_micros x <? key_micros y) eqn:E.
    + apply Z.ltb_lt in E. constructor; [constructor; assumption|].
      constructor; [exact E|].
      eapply Forall_impl; [|exact Hy]. intros z Hz. unfold key_lt in *. lia.
    + apply Z.ltb_ge in E. constructor.
      * apply IH; [exact Hs | tauto].
      * assert (Hxy : key_lt y x) by (unfold key_lt; lia).
        apply Forall_forall. intros z Hz.
        apply (Permutation_in _ (insert_item_perm x l)) in Hz.
        destruct Hz as [<- | Hz]; [exact Hxy|].
        rewrite Forall_forall in Hy. auto.
Qed.

Lemma fold_insert_sorted (l : list (aware * grid)) :
  forall acc,
  StronglySorted key_lt acc ->
  NoDup (map key_micros (acc ++ l)) ->
  StronglySorted key_lt (fold_left (fun acc x => insert_item x acc) l acc).
Proof.
  induction l as [|x l IH]; intros acc Hs Hnd; cbn.
  - exact Hs.
  - assert (Hp : Permutation (map key_micros (acc ++ x :: l))
                   (key_micros x :: map key_micros (acc ++ l))).
    { rewrite <- Permutation_middle. reflexivity. }
    pose proof (Permutation_NoDup Hp Hnd) as Hnd'.
    apply NoDup_cons_iff in Hnd'. destruct Hnd' as [Hfresh Hnd'].
    apply IH.
    + apply insert_item_sorted; [exact Hs|].
      intros Hin. apply Hfresh. rewrite map_app. apply in_or_app. left. exact Hin.
    + eapply Permutation_NoDup; [|exact Hnd].
      apply Permutation_map.
      rewrite <- Permutation_middle.
      rewrite (Permutation_app_tail l (insert_item_perm x acc)).
      reflexivity.
Qed.

(** The items of a [dict] come out of [sorted] in strictly ascending
    order of their dates. *)
Lemma sorted_ascending (d : dict) :
  dict_ok d -> StronglySorted key_lt (sorted d).
Proof.
  intros Hok. apply fold_insert_sorted; [constructor | exact Hok].
Qed.

(** Two strictly ascending lists with the same entries are equal. *)
Lemma ascending_unique (l1 : list (aware * grid)) :
  forall l2,
  StronglySorted key_lt l1 -> StronglySorted key_lt l2 ->
  Permutation l1 l2 -> l1 = l2.
Proof.
  induction l1 as [|a l1 IH]; intros l2 H1 H2 Hp.
  - apply Permutation_nil in Hp. symmetry. exact Hp.
  - destruct l2 as [|b l2].
    { symmetry in Hp. apply Permutation_nil in Hp. discriminate Hp. }
    apply StronglySorted_inv in H1. destruct H1 as [H1 Ha].
    apply StronglySorted_inv in H2. destruct H2 as [H2 Hb].
    rewrite Forall_forall in Ha, Hb.
    assert (Hab : a = b).
    { assert (Ina : In a (b :: l2))
        by (apply (Permutation_in _ Hp); left; reflexivity).
      assert (Inb : In b (a :: l1))
        by (apply (Permutation_in _ (Permutation_sym Hp)); left; reflexivity).
      destruct Ina as [E | Ina]; [symmetry; exact E|].
      destruct Inb as [E | Inb]; [exact E|].
      specialize (Ha b Inb). specialize (Hb a Ina).
      unfold key_lt in *. lia. }
    subst b. f_equal. apply IH; try assumption.
    eapply Permutation_cons_inv. exact Hp.
Qed.

(** The loop that builds the matrix appends one section per item. *)
Lemma append_section_rows (all_values : grid) (item : aware * grid) :
  append_section all_values item = all_values ++ section_rows item.
Proof.
  destruct item as [date data]. unfold append_section, section_rows, header_row.
  cbn [fst snd]. destruct data; cbn [nonempty snapshot_rows];
    repeat rewrite <- app_assoc; reflexivity.
Qed.

Lemma fold_append_section (items : list (aware * grid)) :
  forall all_values,
  fold_left append_section items all_values
  = all_values ++ flat_map section_rows items.
Proof.
  induction items as [|item items IH]; intros all_values; cbn [fold_left flat_map].
  - rewrite app_nil_r. reflexivity.
  - rewrite IH, append_section_rows, <- app_assoc. reflexivity.
Qed.

Lemma build_all_values_layout (now : naive) (all_data : dict) :
  build_all_values now all_data
  = banner_rows now ++ flat_map section_rows (sorted all_data).
Proof. unfold build_all_values. rewrite fold_append_section. reflexivity. Qed.

Lemma section_rows_length (item : aware * grid) :
  List.length (section_rows item) = (5 + Nat.max 1 (List.length (snd item)))%nat.
Proof.
  unfold section_rows. rewrite !length_app. cbn [List.length].
  destruct (snd item) as [|r rows]; cbn [snapshot_rows List.length]; lia.
Qed.

Lemma flat_map_section_length (items : list (aware * grid)) :
  List.length (flat_map section_rows items)
  = list_sum (map (fun item => (5 + Nat.max 1 (List.length (snd item)))%nat) items).
Proof.
  induction items as [|item items IH]; cbn [flat_map map list_sum].
  - reflexivity.
  - rewrite length_app, section_rows_length, IH. reflexivity.
Qed.

(** ** C7 *)

(** C7. For every accumulator the row matrix is the banner followed by one
    section per entry, the entries taken in strictly ascending order of
    their dates, each entry once.  For two accumulators holding the same
    entries in any insertion order, the writer sorts both into the same
    sequence, builds the same row matrix, and therefore behaves the same on
    every Sheets service. *)
Theorem archive_independent_of_insertion_order :
  forall (now : naive) (d1 d2 : dict),
  dict_ok d1 ->
  Permutation d1 d2 ->
  StronglySorted key_lt (sorted d1)
  /\ Permutation (sorted d1) d1
  /\ build_all_values now d1
     = banner_rows now ++ flat_map section_rows (sorted d1)
  /\ sorted d1 = sorted d2
  /\ build_all_values now d1 = build_all_values now d2
  /\ (forall (World : Type) (sheets : sheets_service World) (w : World),
        append_to_destination sheets now d1 w
        = append_to_destination sheets now d2 w).
Proof.
  intros now d1 d2 Hok Hp.
  assert (Hok2 : dict_ok d2).
  { unfold dict_ok in *. eapply Permutation_NoDup; [|exact Hok].
    apply Permutation_map. exact Hp. }
  assert (Hs : sorted d1 = sorted d2).
  { apply ascending_unique; try (apply sorted_ascending; assumption).
    rewrite !sorted_perm. exact Hp. }
  split; [apply sorted_ascending; exact Hok|].
  split; [apply sorted_perm|].
  split; [apply build_all_values_layout|].
  split; [exact Hs|].
  assert (Hb : build_all_values now d1 = build_all_values now d2).
  { rewrite !build_all_values_layout, Hs. reflexivity. }
  split; [exact Hb|].
  intros World sheets w. unfold append_to_destination. rewrite Hb. reflexivity.
Qed.

(** Tuesday stored before Monday: the section of Monday comes first. *)
Lemma archive_independent_of_insertion_order_witness :
  let now := mkNaive 2024 9 1 12 0 0 0 in
  let monday := eastern_daylight 2024 6 3 22 0 0 in
  let tuesday := eastern_daylight 2024 6 4 22 0 0 in
  sorted [(tuesday, [["b"]]); (monday, [["a"]])]
  = [(monday, [["a"]]); (tuesday, [["b"]])]
  /\ build_all_values now [(tuesday, [["b"]]); (monday, [["a"]])]
     = banner_rows now
       ++ section_rows (monday, [["a"]]) ++ section_rows (tuesday, [["b"]])
  /\ build_all_values now [(tuesday, [["b"]]); (monday, [["a"]])]
     = build_all_values now [(monday, [["a"]]); (tuesday, [["b"]])].
Proof.
  intros now monday tuesday.
  destruct (archive_independent_of_insertion_order now
              [(tuesday, [["b"]]); (monday, [["a"]])]
              [(monday, [["a"]]); (tuesday, [["b"]])])
    as (_ & _ & Hlayout & Hs & Hb & _).
  - unfold dict_ok. vm_compute.
    constructor; [intros [H | []]; discriminate H|].
    constructor; [intros []|constructor].
  - apply perm_swap.
  - split; [rewrite Hs; reflexivity|]. split; [|exact Hb].
    rewrite Hlayout, Hs. reflexivity.
Defined.

(** ** C10 *)

(** C10. The row matrix is the four banner rows followed, for each date
    in strictly ascending order, by its section: one header row, one blank
    row, the snapshot rows as they are (or the single no-data row when the
    snapshot is empty), one blank row, one separator row and one blank row.
    Its length is 4 plus, summed over the dates, 5 plus the larger of 1 and
    the number of snapshot rows. *)
Theorem build_all_values_structure :
  forall (now : naive) (all_data : dict),
  dict_ok all_data ->
  build_all_values now all_data
  = banner_rows now
    ++ flat_map
         (fun item =>
            [header_row (fst item); [""]]
            ++ (match snd item with
                | [] => [["[No data found for this date]"]]
                | _ :: _ => snd item
                end)
            ++ [[""]; [str_repeat "-" 50]; [""]])
         (sorted all_data)
  /\ List.length (banner_rows now) = 4%nat
  /\ Permutation (sorted all_data) all_data
  /\ StronglySorted key_lt (sorted all_data)
  /\ List.length (build_all_values now all_data)
     = (4 + list_sum
              (map (fun item => 5 + Nat.max 1 (List.length (snd item)))
                   all_data))%nat.
Proof.
  intros now all_data Hok.
  split; [apply build_all_values_layout|].
  split; [reflexivity|].
  split; [apply sorted_perm|].
  split; [apply sorted_ascending; exact Hok|].
  rewrite build_all_values_layout, length_app, flat_map_section_length.
  cbn [banner_rows List.length]. f_equal.
  apply Permutation_list_sum, Permutation_map, sorted_perm.
Qed.

Lemma build_all_values_structure_witness :
  let now := mkNaive 2024 9 1 12 0 0 0 in
  let monday := eastern_daylight 2024 6 3 22 0 0 in
  let tuesday := eastern_daylight 2024 6 4 22 0 0 in
  let all_data := [(tuesday, [["b1"]; ["b2"]]); (monday, [])] in
  List.length (build_all_values now all_data) = 17%nat
  /\ sorted all_data = [(monday, []); (tuesday, [["b1"]; ["b2"]])].
Proof.
  intros now monday tuesday all_data.
  destruct (build_all_values_structure now all_data) as (_ & _ & _ & _ & Hlen).
  - unfold dict_ok. vm_compute.
    constructor; [intros [H | []]; discriminate H|].
    constructor; [intros []|constructor].
  - split; [rewrite Hlen; reflexivity | reflexivity].
Defined.

(* ================================================================== *)
(** * Date generator *)

Lemma in_year_range_iff (y : Z) :
  in_year_range y = true <-> MINYEAR <= y <= MAXYEAR.
Proof.
  unfold in_year_range. rewrite andb_true_iff, !Z.leb_le. reflexivity.
Qed.

(** The conversion of an argument to a C [int]. *)
Lemma as_c_int_cases (v : Z) :
  (INT_MIN <= v <= INT_MAX /\ as_c_int v = Returned v)
  \/ ((v < INT_MIN \/ INT_MAX < v)
      /\ exists reason, as_c_int v = Raised (OverflowError reason)).
Proof.
  unfold as_c_int, INT_MIN, INT_MAX, LONG_MIN, LONG_MAX.
  destruct (Z.ltb_spec v (-9223372036854775808));
    [right; split; [lia | eexists; reflexivity]|].
  destruct (Z.ltb_spec 9223372036854775807 v);
    [right; split; [lia | eexists; reflexivity]|].
  cbn [orb].
  destruct (Z.ltb_spec 2147483647 v);
    [right; split; [lia | eexists; reflexivity]|].
  destruct (Z.ltb_spec v (-2147483648));
    [right; split; [lia | eexists; reflexivity]|].
  left. split; [lia | reflexivity].
Qed.

Lemma as_c_int_small (v : Z) :
  INT_MIN <= v <= INT_MAX -> as_c_int v = Returned v.
Proof.
  intros Hv. destruct (as_c_int_cases v) as [[_ H] | [Hout _]]; [exact H | lia].
Qed.

(** The two calls of the constructor in the generator, for a year of the
    calendar. *)
Lemma datetime_june_1 (y : Z) :
  in_year_range y = true ->
  datetime y 6 1 22 0 0 = Returned (mkNaive y 6 1 22 0 0 0).
Proof.
  intros Hy. unfold datetime.
  rewrite !as_c_int_small
    by (apply in_year_range_iff in Hy; unfold MINYEAR, MAXYEAR in Hy;
        unfold INT_MIN, INT_MAX; lia).
  cbn [and_then]. unfold check_date_time_args. rewrite Hy.
  reflexivity.
Qed.

Lemma datetime_august_30 (y : Z) :
  in_year_range y = true ->
  datetime y 8 30 23 59 59 = Returned (mkNaive y 8 30 23 59 59 0).
Proof.
  intros Hy. unfold datetime.
  rewrite !as_c_int_small
    by (apply in_year_range_iff in Hy; unfold MINYEAR, MAXYEAR in Hy;
        unfold INT_MIN, INT_MAX; lia).
  cbn [and_then]. unfold check_date_time_args. rewrite Hy.
  reflexivity.
Qed.

(** The first call of the constructor, for a year outside the calendar. *)
Lemma datetime_june_1_out_of_range (y : Z) :
  y < MINYEAR \/ MAXYEAR < y ->
  exists e,
    datetime y 6 1 22 0 0 = Raised e
    /\ (INT_MIN <= y <= INT_MAX ->
        e = ValueError ("year " ++ decimal y ++ " is out of range")%string)
    /\ (y < INT_MIN \/ INT_MAX < y -> exists reason, e = OverflowError reason).
Proof.
  intros Hout. unfold datetime.
  destruct (as_c_int_cases y) as [[Hfit Hc] | [Hbig (reason & Hc)]]; rewrite Hc.
  - rewrite !as_c_int_small by (unfold INT_MIN, INT_MAX; lia).
    cbn [and_then]. unfold check_date_time_args.
    assert (Hr : in_year_range y = false).
    { unfold in_year_range. apply andb_false_iff. rewrite !Z.leb_gt. lia. }
    rewrite Hr. cbn [negb]. eexists. split; [reflexivity|].
    split; [reflexivity | lia].
  - cbn [and_then]. eexists. split; [reflexivity|].
    split; [lia | intros _; eexists; reflexivity].
Qed.

Section DateGeneratorFacts.
Variable y : Z.
Hypothesis Hy : in_year_range y = true.

(** One day later, inside a month. *)
Lemma add_days_next_in_month (m d : Z) :
  1 <= d < days_in_month y m ->
  add_days (at_10pm y m d) 1 = Returned (at_10pm y m (d + 1)).
Proof.
  intros Hd. unfold add_days, normalize_datetime, at_10pm.
  cbn -[normalize_y_m_d in_year_range].
  replace (d + 1 + 0) with (d + 1) by lia.
  unfold normalize_y_m_d.
  destruct (Z.ltb_spec (d + 1) 1); [lia|].
  destruct (Z.ltb_spec (days_in_month y m) (d + 1)); [lia|].
  cbn -[in_year_range]. rewrite Hy. reflexivity.
Qed.

(** One day later, from the last day of a month other than December. *)
Lemma add_days_next_month (m d : Z) :
  d = days_in_month y m -> 1 <= d -> m < 12 ->
  add_days (at_10pm y m d) 1 = Returned (at_10pm y (m + 1) 1).
Proof.
  intros Hd Hpos Hm. unfold add_days, normalize_datetime, at_10pm.
  cbn -[normalize_y_m_d in_year_range].
  replace (d + 1 + 0) with (d + 1) by lia.
  unfold normalize_y_m_d. rewrite <- Hd.
  destruct (Z.ltb_spec (d + 1) 1); [lia|].
  destruct (Z.ltb_spec d (d + 1)); [|lia].
  destruct (Z.eqb_spec (d + 1) 0); [lia|].
  rewrite Z.eqb_refl.
  destruct (Z.ltb_spec 12 (m + 1)); [lia|].
  cbn -[in_year_range]. rewrite Hy. reflexivity.
Qed.

Lemma add_days_tomorrow (m d : Z) :
  1 <= d <= days_in_month y m -> m < 12 ->
  add_days (at_10pm y m d) 1 = Returned (tomorrow y m d).
Proof.
  intros Hd Hm. unfold tomorrow.
  destruct (Z.ltb_spec d (days_in_month y m)).
  - apply add_days_next_in_month. lia.
  - apply add_days_next_month; lia.
Qed.

Lemma steps_app (l1 l2 : list naive) (nxt : naive) :
  steps l1 (hd nxt l2) -> steps l2 nxt -> steps (l1 ++ l2) nxt.
Proof.
  intros H1 H2. induction l1 as [|t l1 IH]; [exact H2|].
  destruct H1 as [Ht H1]. split; [|exact (IH H1)].
  rewrite Ht. destruct l1; reflexivity.
Qed.

(** Consecutive days of one month form a chain that ends in the day
    after the last one. *)
Lemma steps_month (m : Z) (n : nat) :
  forall s : nat,
  m < 12 -> (1 <= s)%nat ->
  Z.of_nat (s + n) <= days_in_month y m ->
  steps (map (fun d => at_10pm y m (Z.of_nat d)) (seq s (S n)))
        (tomorrow y m (Z.of_nat (s + n))).
Proof.
  induction n as [|n IH]; intros s Hm Hs Hlast.
  - cbn [seq map steps hd]. rewrite Nat.add_0_r in *.
    split; [|exact I]. apply add_days_tomorrow; lia.
  - change (seq s (S (S n))) with (s :: seq (S s) (S n)).
    cbn [map]. split.
    + cbn [seq map hd].
      replace (at_10pm y m (Z.of_nat (S s))) with (tomorrow y m (Z.of_nat s)).
      * apply add_days_tomorrow; lia.
      * unfold tomorrow.
        destruct (Z.ltb_spec (Z.of_nat s) (days_in_month y m)); [|lia].
        f_equal. lia.
    + replace (s + S n)%nat with (S s + n)%nat by lia.
      apply IH; lia.
Qed.

Lemma summer_days_steps : steps (summer_days y) (at_10pm y 8 31).
Proof.
  unfold summer_days, month_days.
  apply steps_app; [|apply steps_app].
  - apply (steps_month 6 29 1); [lia | lia | cbn; lia].
  - apply (steps_month 7 30 1); [lia | lia | cbn; lia].
  - apply (steps_month 8 29 1); [lia | lia | cbn; lia].
Qed.

Lemma summer_days_in (t : naive) :
  In t (summer_days y)
  <-> exists m d, in_summer m d /\ t = at_10pm y m d.
Proof.
  unfold summer_days, month_days, in_summer.
  rewrite !in_app_iff, !in_map_iff. split.
  - intros [(k & <- & Hk) | [(k & <- & Hk) | (k & <- & Hk)]];
      apply in_seq in Hk; eexists _, (Z.of_nat k);
        (split; [|reflexivity]); lia.
  - intros (m & d & Hmd & ->).
    destruct Hmd as [[-> Hd] | [[-> Hd] | [-> Hd]]];
      [left | right; left | right; right];
      exists (Z.to_nat d); rewrite Z2Nat.id by lia;
        (split; [reflexivity | apply in_seq; lia]).
Qed.

Lemma summer_days_before_end (t : naive) :
  In t (summer_days y) ->
  naive_le t (mkNaive y 8 30 23 59 59 0) = true.
Proof.
  intros Ht. apply summer_days_in in Ht.
  destruct Ht as (m & d & Hmd & ->).
  unfold naive_le, naive_fields, at_10pm.
  cbn [year month day hour minute second microsecond lex_compare].
  rewrite Z.compare_refl.
  destruct Hmd as [[-> Hd] | [[-> Hd] | [-> Hd]]]; try reflexivity.
  cbn [Z.compare Pos.compare Pos.compare_cont].
  destruct (Z.compare_spec d 30); try reflexivity. lia.
Qed.

Lemma august_31_after_end :
  naive_le (at_10pm y 8 31) (mkNaive y 8 30 23 59 59 0) = false.
Proof.
  unfold naive_le, naive_fields, at_10pm.
  cbn [year month day hour minute second microsecond lex_compare].
  rewrite Z.compare_refl. reflexivity.
Qed.

Lemma later_day_at_10pm (m d m' d' : Z) :
  days_before_month y m + d < days_before_month y m' + d' ->
  later_day (at_10pm y m d) (at_10pm y m' d').
Proof.
  intros H. unfold later_day, day_number, ymd_to_ord, at_10pm.
  cbn [year month day hour minute second microsecond].
  repeat split. lia.
Qed.

(** The position of a summer day counted from the start of the year. *)
Lemma in_summer_offset (m d : Z) :
  in_summer m d ->
  days_before_month y m + d
  = days_before_month y 6 + (days_before_month_table m - 151) + d
  /\ 1 <= days_before_month_table m - 151 + d <= 91.
Proof.
  unfold days_before_month.
  intros [[-> Hd] | [[-> Hd] | [-> Hd]]];
    cbn [Z.ltb Z.compare Pos.compare Pos.compare_cont andb
         days_before_month_table]; lia.
Qed.

Lemma month_days_sorted (m : Z) (n : nat) :
  forall s : nat,
  StronglySorted later_day
    (map (fun d => at_10pm y m (Z.of_nat d)) (seq s n)).
Proof.
  induction n as [|n IH]; intros s; cbn [seq map]; constructor.
  - apply IH.
  - apply Forall_forall. intros t Ht.
    apply in_map_iff in Ht. destruct Ht as (k & <- & Hk).
    apply in_seq in Hk. apply later_day_at_10pm. lia.
Qed.

Lemma StronglySorted_app {A : Type} (R : A -> A -> Prop) (l1 l2 : list A) :
  StronglySorted R l1 -> StronglySorted R l2 ->
  (forall a b, In a l1 -> In b l2 -> R a b) ->
  StronglySorted R (l1 ++ l2).
Proof.
  intros H1 H2 H12. induction H1 as [|a l1 H1 IH Ha]; [exact H2|].
  cbn [app]. constructor.
  - apply IH. intros x b Hx Hb. apply H12; [right; exact Hx | exact Hb].
  - apply Forall_app. split; [exact Ha|].
    apply Forall_forall. intros b Hb. apply H12; [left; reflexivity | exact Hb].
Qed.

Lemma month_days_in (m : Z) (n : nat) (t : naive) :
  In t (month_days y m n)
  <-> exists d, 1 <= d <= Z.of_nat n /\ t = at_10pm y m d.
Proof.
  unfold month_days. rewrite in_map_iff. split.
  - intros (k & <- & Hk). apply in_seq in Hk.
    exists (Z.of_nat k). split; [lia | reflexivity].
  - intros (d & Hd & ->). exists (Z.to_nat d).
    rewrite Z2Nat.id by lia. split; [reflexivity | apply in_seq; lia].
Qed.

(** The days of the summer are in strictly ascending calendar order,
    all at the same time of day. *)
Lemma summer_days_ascending : StronglySorted later_day (summer_days y).
Proof.
  unfold summer_days.
  apply StronglySorted_app; [apply month_days_sorted | |].
  - apply StronglySorted_app; [apply month_days_sorted ..|].
    intros a b Ha Hb.
    apply month_days_in in Ha, Hb.
    destruct Ha as (d & Hd & ->). destruct Hb as (d' & Hd' & ->).
    apply later_day_at_10pm.
    destruct (in_summer_offset 7 d) as [-> _]; [unfold in_summer; lia|].
    destruct (in_summer_offset 8 d') as [-> _]; [unfold in_summer; lia|].
    cbn [days_before_month_table]. lia.
  - intros a b Ha Hb. apply month_days_in in Ha.
    destruct Ha as (d & Hd & ->).
    apply in_app_or in Hb.
    destruct Hb as [Hb | Hb]; apply month_days_in in Hb;
      destruct Hb as (d' & Hd' & ->); apply later_day_at_10pm;
      destruct (in_summer_offset 6 d) as [-> _]; try (unfold in_summer; lia).
    + destruct (in_summer_offset 7 d') as [-> _]; [unfold in_summer; lia|].
      cbn [days_before_month_table]. lia.
    + destruct (in_summer_offset 8 d') as [-> _]; [unfold in_summer; lia|].
      cbn [days_before_month_table]. lia.
Qed.

End DateGeneratorFacts.

Section DateGeneratorLoop.
Variable eastern : timezone.
Variable end_date : naive.

(** The loop walks a chain of consecutive days up to the end date and
    keeps the weeknights. *)
Lemma weeknight_loop_steps (l : list naive) :
  forall (fuel : nat) (nxt : naive) (dates : list aware),
  (List.length l < fuel)%nat ->
  steps l nxt ->
  (forall t, In t l -> naive_le t end_date = true) ->
  naive_le nxt end_date = false ->
  weeknight_loop fuel eastern (hd nxt l) end_date dates
  = Returned (dates ++ map (localize eastern) (filter is_weeknight l)).
Proof.
  induction l as [|t l IH]; intros fuel nxt dates Hfuel Hsteps Hle Hend.
  - destruct fuel as [|fuel]; [cbn in Hfuel; lia|].
    cbn [hd weeknight_loop]. rewrite Hend. cbn. rewrite app_nil_r. reflexivity.
  - destruct fuel as [|fuel]; [cbn in Hfuel; lia|].
    cbn [hd weeknight_loop]. rewrite (Hle t) by (left; reflexivity).
    destruct Hsteps as [Hnext Hsteps]. rewrite Hnext.
    rewrite IH; try assumption.
    + cbn [filter]. unfold is_weeknight at 2.
      destruct (weekday t <=? 4); cbn [map]; [|reflexivity].
      rewrite <- app_assoc. reflexivity.
    + cbn in Hfuel. lia.
    + intros t' Ht'. apply Hle. right. exact Ht'.
Qed.

End DateGeneratorLoop.

Lemma StronglySorted_map_filter {A B : Type} (R : A -> A -> Prop)
    (R' : B -> B -> Prop) (f : A -> B) (p : A -> bool) (l : list A) :
  (forall a b, R a b -> R' (f a) (f b)) ->
  StronglySorted R l ->
  StronglySorted R' (map f (filter p l)).
Proof.
  intros Hf. induction 1 as [|a l Hs IH Ha]; cbn.
  - constructor.
  - destruct (p a); [|exact IH]. cbn. constructor; [exact IH|].
    apply Forall_forall. intros b Hb.
    apply in_map_iff in Hb. destruct Hb as (x & <- & Hx).
    apply filter_In in Hx. destruct Hx as [Hx _].
    rewrite Forall_forall in Ha. auto.
Qed.

Lemma StronglySorted_lt_NoDup (l : list aware) :
  StronglySorted earlier_instant l -> NoDup l.
Proof.
  induction 1 as [|a l Hs IH Ha]; constructor; [|exact IH].
  intros Hin. rewrite Forall_forall in Ha. specialize (Ha a Hin).
  unfold earlier_instant in Ha. lia.
Qed.

(** A later day at the same time of day is a later instant in any zone
    whose offsets stay between Eastern standard and daylight time. *)
Lemma later_day_earlier_instant (eastern : timezone) (a b : naive) :
  (forall t, EST <= offset_at eastern t <= EDT) ->
  later_day a b ->
  earlier_instant (localize eastern a) (localize eastern b).
Proof.
  intros Htz (Hd & Hh & Hm & Hs & Hu).
  unfold earlier_instant, utc_micros, localize. cbn [wall utcoffset].
  unfold day_number in Hd. rewrite Hh, Hm, Hs, Hu.
  pose proof (Htz a) as Ha. pose proof (Htz b) as Hb.
  unfold EST, EDT in *. lia.
Qed.

(** ** C4 *)

(** C4. For every year of the calendar (1 to 9999), given enough steps
    for the 91 days of the range, the generator returns exactly the days
    from June 1 to August 30 of that year whose weekday is Monday to Friday,
    in calendar order, each localized to Eastern time at 22:00:00; with
    Eastern offsets (between standard and daylight time) the instants are
    strictly increasing, so no date occurs twice. *)
Theorem get_weeknight_dates_correct :
  forall (fuel : nat) (eastern : timezone) (year : Z),
  (92 <= fuel)%nat ->
  MINYEAR <= year <= MAXYEAR ->
  (forall t, EST <= offset_at eastern t <= EDT) ->
  exists dates,
    get_weeknight_dates fuel eastern year = Returned dates
    /\ dates = map (localize eastern) (filter is_weeknight (summer_days year))
    /\ (forall a,
          In a dates
          <-> exists m d,
                in_summer m d
                /\ 0 <= weekday (at_10pm year m d) <= 4
                /\ a = localize eastern (at_10pm year m d))
    /\ StronglySorted earlier_instant dates
    /\ NoDup dates.
Proof.
  intros fuel eastern year Hfuel Hyear Htz.
  apply in_year_range_iff in Hyear.
  assert (Hsorted : StronglySorted earlier_instant
            (map (localize eastern) (filter is_weeknight (summer_days year)))).
  { apply (StronglySorted_map_filter later_day).
    - intros a b. apply later_day_earlier_instant. exact Htz.
    - apply summer_days_ascending. }
  eexists. split; [|split; [reflexivity|]].
  - unfold get_weeknight_dates.
    rewrite datetime_june_1, datetime_august_30 by exact Hyear.
    change (mkNaive year 6 1 22 0 0 0)
      with (hd (at_10pm year 8 31) (summer_days year)).
    rewrite (weeknight_loop_steps eastern (mkNaive year 8 30 23 59 59 0)
               (summer_days year) fuel (at_10pm year 8 31) []).
    + reflexivity.
    + change (List.length (summer_days year)) with 91%nat. lia.
    + apply summer_days_steps. exact Hyear.
    + apply summer_days_before_end.
    + apply august_31_after_end.
  - split; [|split; [exact Hsorted | apply StronglySorted_lt_NoDup, Hsorted]].
    intros a. rewrite in_map_iff. split.
    + intros (t & <- & Ht). apply filter_In in Ht. destruct Ht as [Ht Hw].
      apply summer_days_in in Ht. destruct Ht as (m & d & Hmd & ->).
      exists m, d. split; [exact Hmd|]. split; [|reflexivity].
      unfold is_weeknight in Hw. apply Z.leb_le in Hw.
      split; [|exact Hw]. unfold weekday. apply Z.mod_pos_bound. lia.
    + intros (m & d & Hmd & Hw & ->).
      exists (at_10pm year m d). split; [reflexivity|].
      apply filter_In. split.
      * apply summer_days_in. exists m, d. split; [exact Hmd | reflexivity].
      * unfold is_weeknight. apply Z.leb_le. lia.
Qed.

Lemma get_weeknight_dates_correct_witness :
  exists dates,
    get_weeknight_dates 92 (fixed_offset EDT) 2024 = Returned dates
    /\ dates = map (localize (fixed_offset EDT))
                   (filter is_weeknight (summer_days 2024))
    /\ (forall a,
          In a dates
          <-> exists m d,
                in_summer m d
                /\ 0 <= weekday (at_10pm 2024 m d) <= 4
                /\ a = localize (fixed_offset EDT) (at_10pm 2024 m d))
    /\ StronglySorted earlier_instant dates
    /\ NoDup dates.
Proof.
  apply (get_weeknight_dates_correct 92 (fixed_offset EDT) 2024).
  - lia.
  - unfold MINYEAR, MAXYEAR. lia.
  - intros t. unfold EST, EDT. cbn. lia.
Defined.

(* ================================================================== *)
(** * Further properties of the resolver *)

(** X6. For a target that converts to UTC: when the listing is in
    ascending order of modification time and every revision is strictly
    before the converted target, the resolver returns the identifier of a
    latest revision. *)
Theorem find_best_revision_fallback_ascending :
  forall (World : Type) (drive : drive_service World) (fuel : nat)
         (file_id : string) (target_time target_utc : aware) (w w' : World)
         (revs : list Revision),
  list_all_pages fuel drive file_id [] None w = (Returned revs, w') ->
  revs <> [] ->
  astimezone_utc target_time = Returned target_utc ->
  Sorted (fun a b => rev_micros a <= rev_micros b) revs ->
  Forall (strictly_before target_utc) revs ->
  exists r,
    In r revs
    /\ find_best_revision fuel drive file_id target_time w
       = (Returned (Some (rev_id r)), w')
    /\ forall x, In x revs -> rev_micros x <= rev_micros r.
Proof.
  intros World drive fuel file_id target_time target_utc w w' revs
         Hlist Hne Hconv Hsorted Hall.
  destruct (exists_last Hne) as (revs' & r & ->).
  exists r. split; [apply in_elt|]. split.
  - eapply find_best_revision_all_before; eassumption.
  - apply last_is_latest_when_ascending. exact Hsorted.
Qed.

Lemma find_best_revision_fallback_ascending_witness :
  let a := mkRevision "a" (utc_time 2024 6 3 9 0 0) in
  let b := mkRevision "b" (utc_time 2024 6 3 10 0 0) in
  let target := eastern_daylight 2024 6 3 7 0 0 in
  exists r,
    In r [a; b]
    /\ find_best_revision 1 (one_page_drive [a; b]) SOURCE_SPREADSHEET_ID target tt
       = (Returned (Some (rev_id r)), tt)
    /\ forall x, In x [a; b] -> rev_micros x <= rev_micros r.
Proof.
  intros a b target.
  apply (find_best_revision_fallback_ascending unit (one_page_drive [a; b])
           1%nat SOURCE_SPREADSHEET_ID target (utc_time 2024 6 3 11 0 0)
           tt tt [a; b]).
  - reflexivity.
  - discriminate.
  - reflexivity.
  - repeat constructor. vm_compute. discriminate.
  - repeat constructor.
Defined.

(* ================================================================== *)
(** * Which exceptions the run contains *)

Section Containment.
Context {World : Type}.
Variable drive : drive_service World.
Variable sheets : sheets_service World.

Lemma find_best_revision_no_http (fuel : nat) (file_id : string)
    (target_time : aware) (w : World) :
  no_http_error (fst (find_best_revision fuel drive file_id target_time w)).
Proof.
  rewrite find_best_revision_run.
  destruct (list_all_pages fuel drive file_id [] None w) as [[revs | e |] w'].
  - destruct (nonempty revs); [|exact I].
    destruct (astimezone_utc target_time) as [u | e |] eqn:Hconv;
      cbn; try exact I.
    apply astimezone_utc_raises in Hconv. subst e. reflexivity.
  - destruct e; cbn; try exact I; reflexivity.
  - exact I.
Qed.

Lemma read_sheet_data_no_http (spreadsheet_id range_name : string)
    (w : World) :
  no_http_error (fst (read_sheet_data sheets spreadsheet_id range_name w)).
Proof.
  rewrite read_sheet_data_run.
  destruct (values_get sheets _ w) as [[resp | e |] w']; cbn; try exact I.
  destruct e; cbn; try exact I; reflexivity.
Qed.

Lemma store_snapshot_no_http (rid : option string) (date : aware)
    (acc : dict) (w : World) :
  no_http_error (fst (store_snapshot sheets rid date acc w)).
Proof.
  destruct (truthy rid) eqn:Ht.
  - rewrite store_snapshot_truthy by exact Ht.
    pose proof (read_sheet_data_no_http SOURCE_SPREADSHEET_ID SOURCE_RANGE w) as H.
    destruct (read_sheet_data sheets SOURCE_SPREADSHEET_ID SOURCE_RANGE w)
      as [[data | e |] w']; cbn in *; try exact I. exact H.
  - rewrite store_snapshot_falsy by exact Ht. exact I.
Qed.

Lemma main_loop_no_http (fuel : nat) (dates : list aware) :
  forall acc w,
  no_http_error (fst (main_loop fuel drive sheets dates acc w)).
Proof.
  induction dates as [|d dates IH]; intros acc w.
  - exact I.
  - rewrite main_loop_cons. unfold loop_body, bind.
    pose proof (find_best_revision_no_http fuel SOURCE_SPREADSHEET_ID d w) as Hf.
    destruct (find_best_revision fuel drive SOURCE_SPREADSHEET_ID d w)
      as [[rid | e |] w1]; cbn in *; try exact I; try exact Hf.
    pose proof (store_snapshot_no_http rid d acc w1) as Hs.
    destruct (store_snapshot sheets rid d acc w1) as [[acc1 | e |] w2];
      cbn in *; try exact I; try exact Hs.
    apply IH.
Qed.

Lemma append_to_destination_no_http (now : naive) (all_data : dict)
    (w : World) :
  no_http_error (fst (append_to_destination sheets now all_data w)).
Proof.
  unfold append_to_destination, bind. rewrite clear_destination_run.
  destruct (values_clear sheets clear_request_sent w) as [[[] | e |] w1];
    try exact I; rewrite write_destination_run;
    destruct (values_update sheets _ w1) as [[resp | e' |] w2];
    cbn; try exact I; destruct e'; cbn; try exact I; reflexivity.
Qed.

End Containment.

Lemma add_days_no_http (t : naive) (n : Z) : no_http_error (add_days t n).
Proof.
  unfold add_days. destruct (in_year_range _); cbn; [exact I | reflexivity].
Qed.

Lemma weeknight_loop_no_http (eastern : timezone) (end_date : naive)
    (fuel : nat) :
  forall current dates,
  no_http_error (weeknight_loop fuel eastern current end_date dates).
Proof.
  induction fuel as [|fuel IH]; intros current dates; [exact I|].
  cbn [weeknight_loop].
  destruct (naive_le current end_date); [|exact I].
  pose proof (add_days_no_http current 1) as Ha.
  destruct (add_days current 1) as [next | e |]; [apply IH | exact Ha | exact I].
Qed.

Lemma and_then_no_http {A B : Type} (r : result A) (k : A -> result B) :
  no_http_error r -> (forall a, no_http_error (k a)) ->
  no_http_error (and_then r k).
Proof. intros Hr Hk. destruct r; cbn; [apply Hk | exact Hr | exact I]. Qed.

Lemma as_c_int_no_http (v : Z) : no_http_error (as_c_int v).
Proof.
  destruct (as_c_int_cases v) as [[_ ->] | [_ (reason & ->)]];
    [exact I | reflexivity].
Qed.

Lemma datetime_no_http (y m d h mi s : Z) :
  no_http_error (datetime y m d h mi s).
Proof.
  unfold datetime.
  repeat (apply and_then_no_http; [apply as_c_int_no_http | intros ?]).
  unfold check_date_time_args.
  repeat match goal with
         | |- context [if ?c then _ else _] => destruct c
         end; cbn; try reflexivity; exact I.
Qed.

Lemma get_weeknight_dates_no_http (fuel : nat) (eastern : timezone)
    (year : Z) :
  no_http_error (get_weeknight_dates fuel eastern year).
Proof.
  unfold get_weeknight_dates.
  pose proof (datetime_no_http year 6 1 22 0 0) as H1.
  destruct (datetime year 6 1 22 0 0) as [current | e |];
    [|exact H1 | exact I].
  pose proof (datetime_no_http year 8 30 23 59 59) as H2.
  destruct (datetime year 8 30 23 59 59) as [end_date | e |];
    [|exact H2 | exact I].
  apply weeknight_loop_no_http.
Qed.

(** X5. Whatever the remote services do, no [HttpError] escapes the
    resolver, the reader, the loop, the writer or the whole run. *)
Theorem http_errors_are_contained :
  forall (World : Type) (drive : drive_service World)
         (sheets : sheets_service World) (fuel : nat) (eastern : timezone)
         (now : naive) (year : Z) (dates : list aware) (acc : dict)
         (file_id range_name : string) (target_time : aware) (w : World),
  no_http_error (fst (find_best_revision fuel drive file_id target_time w))
  /\ no_http_error (fst (read_sheet_data sheets file_id range_name w))
  /\ no_http_error (fst (main_loop fuel drive sheets dates acc w))
  /\ no_http_error (fst (append_to_destination sheets now acc w))
  /\ no_http_error (fst (main fuel eastern now drive sheets year w)).
Proof.
  intros World drive sheets fuel eastern now yr dates acc file_id range_name
         target_time w.
  repeat split.
  - apply find_best_revision_no_http.
  - apply read_sheet_data_no_http.
  - apply main_loop_no_http.
  - apply append_to_destination_no_http.
  - unfold main.
    pose proof (get_weeknight_dates_no_http fuel eastern yr) as Hd.
    destruct (get_weeknight_dates fuel eastern yr) as [target_dates | e |];
      cbn in *; [| exact Hd | exact I].
    unfold bind.
    pose proof (main_loop_no_http drive sheets fuel target_dates [] w) as Hl.
    destruct (main_loop fuel drive sheets target_dates [] w)
      as [[all | e |] w1]; cbn in *; [| exact Hl | exact I].
    apply append_to_destination_no_http.
Qed.

(** X4. An exception that is not an [HttpError] is not caught: raised by the
    listing it leaves the resolver, raised by the read it leaves the
    reader, and either way it ends the loop at that date. *)
Theorem other_exceptions_propagate :
  forall (World : Type) (drive : drive_service World)
         (sheets : sheets_service World) (fuel : nat) (e : exn)
         (w w' : World),
  is_http_error e = false ->
  (forall file_id target_time,
     list_all_pages fuel drive file_id [] None w = (Raised e, w') ->
     find_best_revision fuel drive file_id target_time w = (Raised e, w'))
  /\ (forall spreadsheet_id range_name,
        values_get sheets (mkGetRequest spreadsheet_id range_name) w
        = (Raised e, w') ->
        read_sheet_data sheets spreadsheet_id range_name w = (Raised e, w'))
  /\ (forall date rest acc,
        list_all_pages fuel drive SOURCE_SPREADSHEET_ID [] None w
        = (Raised e, w') ->
        main_loop fuel drive sheets (date :: rest) acc w = (Raised e, w'))
  /\ (forall date rest acc rid w0,
        find_best_revision fuel drive SOURCE_SPREADSHEET_ID date w0
        = (Returned rid, w) ->
        truthy rid = true ->
        values_get sheets (mkGetRequest SOURCE_SPREADSHEET_ID "Edit!A:L") w
        = (Raised e, w') ->
        main_loop fuel drive sheets (date :: rest) acc w0 = (Raised e, w')).
Proof.
  intros World drive sheets fuel e w w' He.
  assert (Hfind : forall file_id target_time,
            list_all_pages fuel drive file_id [] None w = (Raised e, w') ->
            find_best_revision fuel drive file_id target_time w = (Raised e, w')).
  { intros file_id target_time Hlist.
    rewrite find_best_revision_run, Hlist. destruct e; try reflexivity.
    discriminate He. }
  assert (Hread : forall spreadsheet_id range_name,
            values_get sheets (mkGetRequest spreadsheet_id range_name) w
            = (Raised e, w') ->
            read_sheet_data sheets spreadsheet_id range_name w = (Raised e, w')).
  { intros spreadsheet_id range_name Hget.
    rewrite read_sheet_data_run, Hget. destruct e; try reflexivity.
    discriminate He. }
  split; [exact Hfind|]. split; [exact Hread|]. split.
  - intros date rest acc Hlist.
    rewrite main_loop_cons. unfold loop_body, bind.
    rewrite (Hfind _ _ Hlist). reflexivity.
  - intros date rest acc rid w0 Hrid Ht Hget.
    rewrite main_loop_cons. unfold loop_body, bind. rewrite Hrid.
    rewrite store_snapshot_truthy by exact Ht.
    change SOURCE_RANGE with "Edit!A:L".
    rewrite (Hread _ _ Hget). reflexivity.
Qed.

Lemma other_exceptions_propagate_witness :
  let date := eastern_daylight 2024 6 3 22 0 0 in
  find_best_revision 1 (failing_drive (OtherException "timeout"))
    SOURCE_SPREADSHEET_ID date tt
  = (Raised (OtherException "timeout"), tt)
  /\ main_loop 1 (failing_drive (OtherException "timeout"))
       (flaky_sheets_unit (HttpError "500")) [date; date] [] tt
     = (Raised (OtherException "timeout"), tt).
Proof.
  intros date.
  destruct (other_exceptions_propagate unit
              (failing_drive (OtherException "timeout"))
              (flaky_sheets_unit (HttpError "500")) 1%nat
              (OtherException "timeout") tt tt eq_refl)
    as (Hfind & _ & Hloop & _).
  split.
  - apply Hfind. reflexivity.
  - apply Hloop. reflexivity.
Defined.

(** X2. A year outside 1..9999 stops the run at the first call of the
    [datetime] constructor, before any remote call: the world is untouched.
    For a year that fits a C [int] the exception is the [ValueError] that
    names the year; for a year beyond that it is an [OverflowError]. *)
Theorem year_out_of_range_raises :
  forall (World : Type) (drive : drive_service World)
         (sheets : sheets_service World) (fuel : nat) (eastern : timezone)
         (now : naive) (yr : Z) (w : World),
  yr < MINYEAR \/ MAXYEAR < yr ->
  exists e,
    get_weeknight_dates fuel eastern yr = Raised e
    /\ main fuel eastern now drive sheets yr w = (Raised e, w)
    /\ (INT_MIN <= yr <= INT_MAX ->
        e = ValueError ("year " ++ decimal yr ++ " is out of range")%string)
    /\ (yr < INT_MIN \/ INT_MAX < yr -> exists reason, e = OverflowError reason).
Proof.
  intros World drive sheets fuel eastern now yr w Hyear.
  destruct (datetime_june_1_out_of_range yr Hyear) as (e & He & Hvalue & Hover).
  assert (Hdates : get_weeknight_dates fuel eastern yr = Raised e).
  { unfold get_weeknight_dates. rewrite He. reflexivity. }
  exists e. split; [exact Hdates|]. split; [|split; assumption].
  unfold main. rewrite Hdates. reflexivity.
Qed.

(** Year 0, and a year that does not fit a C [int]. *)
Lemma year_out_of_range_raises_witness :
  (get_weeknight_dates 92 (fixed_offset EDT) 0
   = Raised (ValueError "year 0 is out of range")
   /\ main 92 (fixed_offset EDT) (mkNaive 2024 9 1 12 0 0 0)
        (one_page_drive []) (flaky_sheets_unit (HttpError "500")) 0 tt
      = (Raised (ValueError "year 0 is out of range"), tt))
  /\ exists reason,
       main 92 (fixed_offset EDT) (mkNaive 2024 9 1 12 0 0 0)
         (one_page_drive []) (flaky_sheets_unit (HttpError "500")) 2147483648 tt
       = (Raised (OverflowError reason), tt).
Proof.
  split.
  - destruct (year_out_of_range_raises unit (one_page_drive [])
                (flaky_sheets_unit (HttpError "500")) 92 (fixed_offset EDT)
                (mkNaive 2024 9 1 12 0 0 0) 0 tt)
      as (e & Hdates & Hmain & Hvalue & _).
    + left. unfold MINYEAR. lia.
    + rewrite Hdates, Hmain, Hvalue by (unfold INT_MIN, INT_MAX; lia).
      split; reflexivity.
  - destruct (year_out_of_range_raises unit (one_page_drive [])
                (flaky_sheets_unit (HttpError "500")) 92 (fixed_offset EDT)
                (mkNaive 2024 9 1 12 0 0 0) 2147483648 tt)
      as (e & _ & Hmain & _ & Hover).
    + right. unfold MAXYEAR. lia.
    + destruct Hover as (reason & ->); [right; unfold INT_MAX; lia|].
      exists reason. exact Hmain.
Defined.

(* ================================================================== *)
(** * How many dates a run covers *)

(** The run of the generator for a year of the calendar, whatever the
    zone. *)
Lemma get_weeknight_dates_run (fuel : nat) (eastern : timezone) (y : Z) :
  (92 <= fuel)%nat ->
  in_year_range y = true ->
  get_weeknight_dates fuel eastern y
  = Returned (map (localize eastern) (filter is_weeknight (summer_days y))).
Proof.
  intros Hfuel Hy.
  unfold get_weeknight_dates.
  rewrite datetime_june_1, datetime_august_30 by exact Hy.
  change (mkNaive y 6 1 22 0 0 0)
    with (hd (at_10pm y 8 31) (summer_days y)).
  rewrite (weeknight_loop_steps eastern (mkNaive y 8 30 23 59 59 0)
             (summer_days y) fuel (at_10pm y 8 31) []).
  - reflexivity.
  - change (List.length (summer_days y)) with 91%nat. lia.
  - apply summer_days_steps. exact Hy.
  - apply summer_days_before_end.
  - apply august_31_after_end.
Qed.

Lemma summer_days_nth (y : Z) :
  summer_days y = map (nth_summer_day y) (seq 0 91).
Proof. reflexivity. Qed.

(** The weekday advances by one per day of the range. *)
Lemma weekday_nth_summer_day (y : Z) (k : nat) :
  weekday (nth_summer_day y k)
  = (weekday (at_10pm y 6 1) + Z.of_nat k) mod 7.
Proof.
  unfold nth_summer_day.
  destruct (k <? 30)%nat; [|destruct (k <? 61)%nat];
    unfold weekday, ymd_to_ord, days_before_month, at_10pm;
    cbn [year month day Z.ltb Z.compare Pos.compare Pos.compare_cont andb
         days_before_month_table];
    rewrite Z.add_mod_idemp_l by lia; f_equal; lia.
Qed.

(** Ninety-one consecutive days are thirteen full weeks: sixty-five of
    them are weekdays, whatever day the range starts on. *)
Lemma weekdays_in_13_weeks (w0 : Z) :
  0 <= w0 < 7 ->
  List.length (filter (fun k => (w0 + Z.of_nat k) mod 7 <=? 4) (seq 0 91))
  = 65%nat.
Proof.
  intros H.
  assert (Hc : w0 = 0 \/ w0 = 1 \/ w0 = 2 \/ w0 = 3 \/ w0 = 4 \/ w0 = 5
               \/ w0 = 6) by lia.
  destruct Hc as [-> | [-> | [-> | [-> | [-> | [-> | ->]]]]]];
    vm_compute; reflexivity.
Qed.

Lemma summer_weeknights_count (y : Z) :
  List.length (filter is_weeknight (summer_days y)) = 65%nat.
Proof.
  rewrite summer_days_nth, filter_map_swap, length_map.
  rewrite (filter_ext_in _
             (fun k => (weekday (at_10pm y 6 1) + Z.of_nat k) mod 7 <=? 4)).
  - apply weekdays_in_13_weeks. unfold weekday. apply Z.mod_pos_bound. lia.
  - intros k _. unfold is_weeknight. rewrite weekday_nth_summer_day.
    reflexivity.
Qed.

(** X1. For every year of the calendar the generator returns exactly 65
    dates. *)
Theorem get_weeknight_dates_count :
  forall (fuel : nat) (eastern : timezone) (year : Z),
  (92 <= fuel)%nat ->
  MINYEAR <= year <= MAXYEAR ->
  exists dates,
    get_weeknight_dates fuel eastern year = Returned dates
    /\ List.length dates = 65%nat.
Proof.
  intros fuel eastern yr Hfuel Hyear. apply in_year_range_iff in Hyear.
  eexists. split; [apply get_weeknight_dates_run; assumption|].
  rewrite length_map. apply summer_weeknights_count.
Qed.

Lemma get_weeknight_dates_count_witness :
  exists dates,
    get_weeknight_dates 92 (fixed_offset EST) 1999 = Returned dates
    /\ List.length dates = 65%nat.
Proof.
  apply (get_weeknight_dates_count 92 (fixed_offset EST) 1999).
  - lia.
  - unfold MINYEAR, MAXYEAR. lia.
Defined.

(* ================================================================== *)
(** * Pagination *)

Lemma option_string_eqb_refl (a : option string) :
  option_string_eqb a a = true.
Proof. destruct a; cbn; [apply String.eqb_refl | reflexivity]. Qed.

(** The request of an iteration carries the current token when it is
    truthy and no token otherwise. *)
Lemma list_all_pages_step {World : Type} (drive : drive_service World)
    (fuel : nat) (file_id : string) (acc : list Revision)
    (token : option string) (w : World) :
  truthy token = true \/ token = None ->
  list_all_pages (S fuel) drive file_id acc token w =
  match revisions_list drive
          (mkListRequest file_id "nextPageToken,revisions(id,modifiedTime)"
             1000 token) w with
  | (Returned response, w') =>
      if truthy (nextPageToken response)
      then list_all_pages fuel drive file_id
             (acc ++ get_default (revisions response) [])
             (nextPageToken response) w'
      else (Returned (acc ++ get_default (revisions response) []), w')
  | (Raised e, w') => (Raised e, w')
  | (OutOfFuel, w') => (OutOfFuel, w')
  end.
Proof.
  intros Htoken. cbn [list_all_pages]. unfold bind.
  assert (Hreq : (if truthy token
                  then revisions_list drive
                         (mkListRequest file_id
                            "nextPageToken,revisions(id,modifiedTime)" 1000 token)
                  else revisions_list drive
                         (mkListRequest file_id
                            "nextPageToken,revisions(id,modifiedTime)" 1000 None))
                 = revisions_list drive
                     (mkListRequest file_id
                        "nextPageToken,revisions(id,modifiedTime)" 1000 token)).
  { destruct Htoken as [-> | ->]; reflexivity. }
  rewrite Hreq.
  destruct (revisions_list drive _ w) as [[response | e |] w']; try reflexivity.
  destruct (truthy (nextPageToken response)); reflexivity.
Qed.

(** X3. Over a Drive that serves a well-formed sequence of pages and checks
    the continuation tokens, the listing follows the tokens through every
    page and returns the revisions of all pages, in page order; a number of
    steps equal to the number of pages is enough. *)
Theorem list_all_pages_collects_pages :
  forall (pages : list (list Revision * option string)) (fuel : nat)
         (file_id : string) (acc : list Revision) (token : option string),
  well_paged pages ->
  truthy token = true \/ token = None ->
  (List.length pages <= fuel)%nat ->
  exists final,
    truthy final = false
    /\ list_all_pages fuel paged_drive file_id acc token (token, pages)
       = (Returned (acc ++ List.concat (map fst pages)), (final, [])).
Proof.
  induction pages as [|[revs next] pages IH];
    intros fuel file_id acc token Hwf Htoken Hfuel.
  - destruct Hwf.
  - destruct fuel as [|fuel]; [cbn in Hfuel; lia|].
    rewrite list_all_pages_step by exact Htoken.
    cbn [paged_drive revisions_list pageToken fst snd].
    rewrite option_string_eqb_refl.
    cbn [nextPageToken revisions get_default map List.concat fst].
    destruct pages as [|page pages].
    + cbn [well_paged] in Hwf. rewrite Hwf.
      exists next. split; [exact Hwf|].
      cbn [map List.concat]. rewrite app_nil_r. reflexivity.
    + cbn [well_paged] in Hwf. destruct Hwf as [Hnext Hwf]. rewrite Hnext.
      destruct (IH fuel file_id (acc ++ revs) next Hwf (or_introl Hnext))
        as (final & Hfinal & Hrun).
      { cbn in Hfuel. cbn. lia. }
      exists final. split; [exact Hfinal|].
      rewrite Hrun, <- app_assoc. reflexivity.
Qed.

Lemma list_all_pages_collects_pages_witness :
  let r1 := mkRevision "r1" (utc_time 2024 6 3 1 55 0) in
  let r2 := mkRevision "r2" (utc_time 2024 6 3 2 5 0) in
  let r3 := mkRevision "r3" (utc_time 2024 6 3 2 15 0) in
  let pages := [([r1; r2], Some "p2"); ([], Some "p3"); ([r3], Some "")] in
  exists final,
    truthy final = false
    /\ list_all_pages 3 paged_drive SOURCE_SPREADSHEET_ID [] None (None, pages)
       = (Returned ([] ++ List.concat (map fst pages)), (final, [])).
Proof.
  intros r1 r2 r3 pages.
  apply (list_all_pages_collects_pages pages 3 SOURCE_SPREADSHEET_ID [] None).
  - cbn. split; [reflexivity | split; reflexivity].
  - right. reflexivity.
  - cbn. lia.
Defined.

(* ================================================================== *)
(** * The remote calls of a run *)

Section Traces.
Context {World : Type}.
Variable P : event -> Prop.

Lemma emits_ret {A : Type} (a : A) : emits P (ret (World := World * list event) a).
Proof. intros wl. exists []. cbn. rewrite app_nil_r. split; [reflexivity | constructor]. Qed.

Lemma emits_out_of_fuel {A : Type} :
  emits P (out_of_fuel (World := World * list event) (A := A)).
Proof. intros wl. exists []. cbn. rewrite app_nil_r. split; [reflexivity | constructor]. Qed.

Lemma emits_lift {A : Type} (r : result A) :
  emits P (lift (World := World * list event) r).
Proof. intros wl. exists []. cbn. rewrite app_nil_r. split; [reflexivity | constructor]. Qed.

Lemma emits_traced {A : Type} (ev : event) (call : M World A) :
  P ev -> emits P (traced ev call).
Proof.
  intros Hev wl. exists [ev]. cbn. split; [reflexivity | repeat constructor; exact Hev].
Qed.

Lemma emits_bind {A B : Type} (m : M (World * list event) A)
    (k : A -> M (World * list event) B) :
  emits P m -> (forall a, emits P (k a)) -> emits P (bind m k).
Proof.
  intros Hm Hk wl. unfold bind.
  destruct (Hm wl) as (evs1 & E1 & F1).
  destruct (m wl) as [[a | e |] wl1]; cbn [snd] in *.
  - destruct (Hk a wl1) as (evs2 & E2 & F2).
    exists (evs1 ++ evs2). rewrite E2, E1, app_assoc.
    split; [reflexivity | apply Forall_app; split; assumption].
  - exists evs1. split; assumption.
  - exists evs1. split; assumption.
Qed.

Lemma emits_try_except_HttpError {A : Type} (body : M (World * list event) A)
    (handler : string -> M (World * list event) A) :
  emits P body -> (forall reason, emits P (handler reason)) ->
  emits P (try_except_HttpError body handler).
Proof.
  intros Hb Hh wl. unfold try_except_HttpError.
  destruct (Hb wl) as (evs1 & E1 & F1).
  destruct (body wl) as [[a | e |] wl1]; cbn [snd] in *;
    try (exists evs1; split; assumption).
  destruct e; try (exists evs1; split; assumption).
  destruct (Hh reason wl1) as (evs2 & E2 & F2).
  exists (evs1 ++ evs2). rewrite E2, E1, app_assoc.
  split; [reflexivity | apply Forall_app; split; assumption].
Qed.

Lemma emits_list_all_pages (drive : drive_service World) (file_id : string)
    (fuel : nat) :
  (forall req, fileId req = file_id -> P (ListCall req)) ->
  forall acc token,
  emits P (list_all_pages fuel (traced_drive drive) file_id acc token).
Proof.
  intros HP. induction fuel as [|fuel IH]; intros acc token.
  - apply emits_out_of_fuel.
  - cbn [list_all_pages]. apply emits_bind.
    + destruct (truthy token); cbn [traced_drive revisions_list];
        apply emits_traced, HP; reflexivity.
    + intros response.
      destruct (negb (truthy (nextPageToken response)));
        [apply emits_ret | apply IH].
Qed.

Lemma emits_find_best_revision (drive : drive_service World)
    (file_id : string) (fuel : nat) (target_time : aware) :
  (forall req, fileId req = file_id -> P (ListCall req)) ->
  emits P (find_best_revision fuel (traced_drive drive) file_id target_time).
Proof.
  intros HP. unfold find_best_revision.
  apply emits_try_except_HttpError; [|intros; apply emits_ret].
  apply emits_bind; [apply emits_list_all_pages, HP|].
  intros revs. destruct (negb (nonempty revs)); [apply emits_ret|].
  apply emits_bind; [apply emits_lift | intros; apply emits_ret].
Qed.

Lemma emits_read_sheet_data (sheets : sheets_service World)
    (spreadsheet_id range_name : string) :
  P (GetCall (mkGetRequest spreadsheet_id range_name)) ->
  emits P (read_sheet_data (traced_sheets sheets) spreadsheet_id range_name).
Proof.
  intros HP. unfold read_sheet_data.
  apply emits_try_except_HttpError; [|intros; apply emits_ret].
  apply emits_bind; [|intros; apply emits_ret].
  cbn [traced_sheets values_get]. apply emits_traced, HP.
Qed.

End Traces.

Section RunTrace.
Context {World : Type}.
Variable drive : drive_service World.
Variable sheets : sheets_service World.

Lemma emits_store_snapshot (rid : option string) (date : aware) (acc : dict) :
  emits reads_source (store_snapshot (traced_sheets sheets) rid date acc).
Proof.
  unfold store_snapshot. destruct (truthy rid); [|apply emits_ret].
  apply emits_bind; [apply emits_read_sheet_data; reflexivity|].
  intros data. destruct (nonempty data); apply emits_ret.
Qed.

Lemma emits_main_loop (fuel : nat) (dates : list aware) :
  forall acc,
  emits reads_source
    (main_loop fuel (traced_drive drive) (traced_sheets sheets) dates acc).
Proof.
  induction dates as [|d dates IH]; intros acc; cbn [main_loop].
  - apply emits_ret.
  - apply emits_bind.
    + apply emits_find_best_revision. intros req Hreq. exact Hreq.
    + intros rid. apply emits_bind; [apply emits_store_snapshot | apply IH].
Qed.

(** The writer clears, then writes, and calls nothing else. *)
Lemma append_to_destination_calls (now : naive) (all_data : dict)
    (wl : World * list event) :
  let run := append_to_destination (traced_sheets sheets) now all_data wl in
  (snd (snd run)
   = snd wl ++ [ClearCall clear_request_sent;
                UpdateCall (update_request_sent (build_all_values now all_data))])
  \/ (snd (snd run) = snd wl ++ [ClearCall clear_request_sent]
      /\ fst run = OutOfFuel).
Proof.
  cbv zeta. unfold append_to_destination, bind.
  rewrite clear_destination_run.
  cbn [traced_sheets values_clear]. unfold traced.
  destruct (values_clear sheets clear_request_sent (fst wl)) as [[[] | e |] w1];
    cbn [fst snd]; [| |right; split; reflexivity];
    left; rewrite write_destination_run;
    cbn [traced_sheets values_update]; unfold traced; cbn [fst snd];
    destruct (values_update sheets _ w1) as [[resp | e' |] w2]; cbn [fst snd];
    try destruct e'; cbn [fst snd]; rewrite <- app_assoc; reflexivity.
Qed.

End RunTrace.

(** X7. Over any Drive and Sheets services, the remote calls of a whole run
    are: calls that list the revisions of the source file or read range
    [Edit!A:L] of the source spreadsheet, followed by at most one clear and
    then one bulk write, both addressed to the destination.  A run that
    returns has made exactly that one clear and that one write, last. *)
Theorem main_remote_calls :
  forall (World : Type) (drive : drive_service World)
         (sheets : sheets_service World) (fuel : nat) (eastern : timezone)
         (now : naive) (year : Z) (w : World),
  let run := main fuel eastern now (traced_drive drive) (traced_sheets sheets)
               year (w, []) in
  exists reads writes,
    snd (snd run) = reads ++ writes
    /\ Forall reads_source reads
    /\ (writes = []
        \/ writes = [ClearCall clear_request_sent]
        \/ exists rows,
             writes = [ClearCall clear_request_sent;
                       UpdateCall (update_request_sent rows)])
    /\ (fst run = Returned tt ->
        exists rows,
          writes = [ClearCall clear_request_sent;
                    UpdateCall (update_request_sent rows)]).
Proof.
  intros World drive sheets fuel eastern now yr w. cbv zeta. unfold main.
  destruct (get_weeknight_dates fuel eastern yr) as [dates | e |].
  - unfold bind.
    destruct (emits_main_loop drive sheets fuel dates [] (w, []))
      as (reads & Hlog & Hreads).
    cbn [snd app] in Hlog.
    destruct (main_loop fuel (traced_drive drive) (traced_sheets sheets)
                dates [] (w, [])) as [[acc | e |] wl1]; cbn [fst snd] in *.
    + destruct (append_to_destination_calls sheets now acc wl1)
        as [Hw | [Hw Hout]]; cbv zeta in *; rewrite Hw, Hlog.
      * exists reads, [ClearCall clear_request_sent;
                       UpdateCall (update_request_sent (build_all_values now acc))].
        split; [reflexivity|]. split; [exact Hreads|].
        split; [right; right; eexists; reflexivity|].
        intros _. eexists; reflexivity.
      * exists reads, [ClearCall clear_request_sent].
        split; [reflexivity|]. split; [exact Hreads|].
        split; [right; left; reflexivity|].
        rewrite Hout. discriminate.
    + exists reads, []. rewrite app_nil_r.
      split; [exact Hlog|]. split; [exact Hreads|].
      split; [left; reflexivity | discriminate].
    + exists reads, []. rewrite app_nil_r.
      split; [exact Hlog|]. split; [exact Hreads|].
      split; [left; reflexivity | discriminate].
  - exists [], []. cbn. split; [reflexivity|]. split; [constructor|].
    split; [left; reflexivity | discriminate].
  - exists [], []. cbn. split; [reflexivity|]. split; [constructor|].
    split; [left; reflexivity | discriminate].
Qed.

Lemma main_remote_calls_witness :
  let run := main 92 (fixed_offset EDT) (mkNaive 2024 9 1 12 0 0 0)
               (traced_drive (one_page_drive []))
               (traced_sheets (flaky_sheets_unit (HttpError "500")))
               2024 (tt, []) in
  exists reads writes,
    snd (snd run) = reads ++ writes
    /\ Forall reads_source reads
    /\ (writes = []
        \/ writes = [ClearCall clear_request_sent]
        \/ exists rows,
             writes = [ClearCall clear_request_sent;
                       UpdateCall (update_request_sent rows)])
    /\ (fst run = Returned tt ->
        exists rows,
          writes = [ClearCall clear_request_sent;
                    UpdateCall (update_request_sent rows)]).
Proof.
  apply (main_remote_calls unit (one_page_drive [])
           (flaky_sheets_unit (HttpError "500")) 92 (fixed_offset EDT)
           (mkNaive 2024 9 1 12 0 0 0) 2024 tt).
Defined.

(* ================================================================== *)
(** * A whole run *)

Lemma earlier_instants_NoDup (l : list aware) :
  StronglySorted earlier_instant l -> NoDup (map utc_micros l).
Proof.
  induction 1 as [|a l Hs IH Ha]; cbn [map]; constructor; [|exact IH].
  intros Hin. apply in_map_iff in Hin. destruct Hin as (b & Hb & Hin).
  rewrite Forall_forall in Ha. specialize (Ha b Hin).
  unfold earlier_instant in Ha. lia.
Qed.

Lemma weeknights_distinct_instants (eastern : timezone) (y : Z) :
  (forall t, EST <= offset_at eastern t <= EDT) ->
  NoDup (map utc_micros
           (map (localize eastern) (filter is_weeknight (summer_days y)))).
Proof.
  intros Htz. apply earlier_instants_NoDup.
  apply (StronglySorted_map_filter later_day).
  - intros a b. apply later_day_earlier_instant. exact Htz.
  - apply summer_days_ascending.
Qed.

Lemma section_sizes_at_least (items : list (aware * grid)) :
  (6 * List.length items
   <= list_sum (map (fun item => 5 + Nat.max 1 (List.length (snd item))) items))%nat.
Proof.
  induction items as [|item items IH]; cbn [map List.length].
  - cbn. lia.
  - match goal with
    | |- context [list_sum (?a :: ?l)] =>
        change (list_sum (a :: l)) with (a + list_sum l)%nat
    end.
    lia.
Qed.

Lemma section_sizes_empty (items : list (aware * grid)) :
  (forall item, In item items -> snd item = []) ->
  list_sum (map (fun item => (5 + Nat.max 1 (List.length (snd item)))%nat)
                items)
  = (6 * List.length items)%nat.
Proof.
  induction items as [|item items IH]; intros Hall;
    cbn [map List.length]; [reflexivity|].
  match goal with
  | |- context [list_sum (?a :: ?l)] =>
      change (list_sum (a :: l)) with (a + list_sum l)%nat
  end.
  cbn beta. rewrite IH by (intros; apply Hall; right; assumption).
  pose proof (Hall item (or_introl eq_refl)) as Hi. unfold grid in Hi.
  rewrite Hi. cbn [List.length]. lia.
Qed.

Lemma build_all_values_length (now : naive) (all_data : dict) :
  List.length (build_all_values now all_data)
  = (4 + list_sum (map (fun item => 5 + Nat.max 1 (List.length (snd item)))
                       all_data))%nat.
Proof.
  rewrite build_all_values_layout, length_app, flat_map_section_length.
  cbn [banner_rows List.length]. f_equal.
  apply Permutation_list_sum, Permutation_map, sorted_perm.
Qed.

(** X8. A run for a year of the calendar whose loop completes hands the
    writer an accumulator with one entry for each of the 65 weeknights, in
    date order; the archive therefore has at least 394 rows, and exactly
    394 when no date yielded data. *)
Theorem main_archives_every_weeknight :
  forall (World : Type) (drive : drive_service World)
         (sheets : sheets_service World) (fuel : nat) (eastern : timezone)
         (now : naive) (year : Z) (w w1 : World) (dates : list aware)
         (acc : dict),
  (92 <= fuel)%nat ->
  MINYEAR <= year <= MAXYEAR ->
  (forall t, EST <= offset_at eastern t <= EDT) ->
  get_weeknight_dates fuel eastern year = Returned dates ->
  main_loop fuel drive sheets dates [] w = (Returned acc, w1) ->
  main fuel eastern now drive sheets year w
  = append_to_destination sheets now acc w1
  /\ map fst acc = dates
  /\ List.length acc = 65%nat
  /\ (394 <= List.length (build_all_values now acc))%nat
  /\ ((forall item, In item acc -> snd item = []) ->
      List.length (build_all_values now acc) = 394%nat).
Proof.
  intros World drive sheets fuel eastern now yr w w1 dates acc
         Hfuel Hyear Htz Hdates Hloop.
  apply in_year_range_iff in Hyear.
  pose proof (get_weeknight_dates_run fuel eastern yr Hfuel Hyear) as Hrun.
  rewrite Hdates in Hrun.
  assert (Hd : dates = map (localize eastern)
                           (filter is_weeknight (summer_days yr)))
    by congruence.
  clear Hrun.
  assert (Hkeys : map fst acc = dates).
  { apply (main_loop_keys drive sheets fuel dates [] w acc w1 Hloop).
    cbn [map app]. rewrite Hd.
    apply weeknights_distinct_instants. exact Htz. }
  assert (Hlen : List.length acc = 65%nat).
  { rewrite <- (length_map fst), Hkeys, Hd, length_map.
    apply summer_weeknights_count. }
  split.
  { unfold main. rewrite Hdates. unfold bind. rewrite Hloop. reflexivity. }
  split; [exact Hkeys|]. split; [exact Hlen|].
  rewrite build_all_values_length. split.
  - pose proof (section_sizes_at_least acc) as H. lia.
  - intros Hempty. rewrite section_sizes_empty by exact Hempty. lia.
Qed.

Lemma main_archives_every_weeknight_witness :
  let dates := map (localize (fixed_offset EDT))
                   (filter is_weeknight (summer_days 2024)) in
  let acc := map (fun d => (d, [] : grid)) dates in
  let now := mkNaive 2024 9 1 12 0 0 0 in
  map fst acc = dates
  /\ List.length acc = 65%nat
  /\ (394 <= List.length (build_all_values now acc))%nat.
Proof.
  intros dates acc now.
  destruct (main_archives_every_weeknight unit (one_page_drive [])
              (flaky_sheets_unit (HttpError "500")) 92 (fixed_offset EDT)
              now 2024 tt tt dates acc) as (_ & Hk & Hl & Hb & _).
  - lia.
  - unfold MINYEAR, MAXYEAR. lia.
  - intros t. unfold EST, EDT. cbn. lia.
  - vm_compute. reflexivity.
  - vm_compute. reflexivity.
  - split; [exact Hk | split; [exact Hl | exact Hb]].
Defined.

(* ================================================================== *)
(** * Conversion of the target to UTC *)

Lemma days_before_year_succ (y : Z) :
  days_before_year (y + 1)
  = days_before_year y + 365 + (if is_leap y then 1 else 0).
Proof.
  unfold days_before_year, is_leap. cbv zeta.
  replace (y + 1 - 1) with y by lia.
  destruct (Z.eqb_spec (y mod 4) 0), (Z.eqb_spec (y mod 100) 0),
           (Z.eqb_spec (y mod 400) 0);
    cbn [andb orb negb]; Z.div_mod_to_equations; lia.
Qed.

Lemma month_cases (m : Z) :
  1 <= m <= 12 ->
  m = 1 \/ m = 2 \/ m = 3 \/ m = 4 \/ m = 5 \/ m = 6 \/ m = 7 \/ m = 8
  \/ m = 9 \/ m = 10 \/ m = 11 \/ m = 12.
Proof. lia. Qed.

(** A day at most one step outside its month is brought back to the
    same ordinal. *)
Lemma normalize_y_m_d_ordinal (y m d : Z) :
  1 <= m <= 12 ->
  0 <= d <= days_in_month y m + 1 ->
  forall y' m' d',
  normalize_y_m_d y m d = (y', m', d') ->
  ymd_to_ord y' m' d' = ymd_to_ord y m d.
Proof.
  intros Hm Hd y' m' d'. unfold normalize_y_m_d.
  pose proof (days_before_year_succ y) as Hnext.
  pose proof (days_before_year_succ (y - 1)) as Hprev.
  replace (y - 1 + 1) with y in Hprev by lia.
  destruct (Z.ltb_spec d 1) as [Hlow | Hlow].
  - cbn [orb]. replace d with 0 by lia. cbn [Z.eqb].
    destruct (Z.ltb_spec 0 (m - 1)) as [Hm1 | Hm1]; intros E;
      inversion E; subst y' m' d'; clear E.
    + unfold ymd_to_ord.
      apply month_cases in Hm.
      unfold days_before_month, days_in_month.
      destruct Hm as [-> | [-> | [-> | [-> | [-> | [-> | [-> | [-> | [-> |
                     [-> | [-> | ->]]]]]]]]]]];
        try lia; cbn; destruct (is_leap y); lia.
    + replace m with 1 by lia. unfold ymd_to_ord, days_before_month.
      cbn [Z.ltb Z.compare Pos.compare Pos.compare_cont andb
           days_before_month_table].
      destruct (is_leap (y - 1)); lia.
  - cbn [orb].
    destruct (Z.ltb_spec (days_in_month y m) d) as [Hhigh | Hhigh].
    + replace d with (days_in_month y m + 1) by lia.
      destruct (Z.eqb_spec (days_in_month y m + 1) 0) as [E0 | _].
      { unfold days_in_month in E0. apply month_cases in Hm.
        destruct Hm as [-> | [-> | [-> | [-> | [-> | [-> | [-> | [-> | [-> |
                       [-> | [-> | ->]]]]]]]]]]];
          cbn in E0; try destruct (is_leap y); lia. }
      rewrite Z.eqb_refl.
      destruct (Z.ltb_spec 12 (m + 1)) as [Hm12 | Hm12]; intros E;
        inversion E; subst y' m' d'; clear E.
      * replace m with 12 by lia.
        unfold ymd_to_ord, days_before_month, days_in_month.
        cbn [Z.ltb Z.eqb Z.compare Pos.compare Pos.compare_cont Pos.eqb andb
             days_before_month_table days_in_month_table].
        destruct (is_leap y); lia.
      * unfold ymd_to_ord. apply month_cases in Hm.
        unfold days_before_month, days_in_month.
        destruct Hm as [-> | [-> | [-> | [-> | [-> | [-> | [-> | [-> | [-> |
                       [-> | [-> | ->]]]]]]]]]]];
          try lia; cbn; destruct (is_leap y); lia.
    + intros E. inversion E. reflexivity.
Qed.

(** The carries of [normalize_datetime] keep the number of seconds and
    move the day by at most one when less than a day is subtracted. *)
Lemma carries_keep_seconds (d h mi s days seconds : Z) :
  0 <= h < 24 -> 0 <= mi < 60 -> 0 <= s < 60 ->
  -1 <= days <= 0 -> 0 <= seconds < 86400 ->
  let s1 := s + - seconds + 0 in
  let mi1 := mi + s1 / 60 in
  let h1 := h + mi1 / 60 in
  let d1 := d + - days + h1 / 24 in
  d1 * 86400 + (h1 mod 24) * 3600 + (mi1 mod 60) * 60 + s1 mod 60
  = d * 86400 + h * 3600 + mi * 60 + s - (days * 86400 + seconds)
  /\ d - 1 <= d1 <= d + 1.
Proof.
  intros Hh Hmi Hs Hdays Hsec. cbv zeta.
  Z.div_mod_to_equations. lia.
Qed.

(** Such a day stays within one year of where it was. *)
Lemma normalize_y_m_d_year (y m d : Z) :
  0 <= d <= days_in_month y m + 1 ->
  forall y' m' d',
  normalize_y_m_d y m d = (y', m', d') ->
  y - 1 <= y' <= y + 1.
Proof.
  intros Hd y' m' d' E. unfold normalize_y_m_d in E. cbv zeta in E.
  destruct ((d <? 1) || (days_in_month y m <? d)) eqn:Hout.
  - destruct (Z.eqb_spec d 0) as [H0 | H0].
    + destruct (0 <? m - 1); inversion E; lia.
    + destruct (Z.eqb_spec d (days_in_month y m + 1)) as [H1 | H1].
      * destruct (12 <? m + 1); inversion E; lia.
      * exfalso. apply orb_true_iff in Hout. rewrite !Z.ltb_lt in Hout. lia.
  - inversion E; lia.
Qed.

(** From February to November it stays within its year. *)
Lemma normalize_y_m_d_same_year (y m d : Z) :
  1 < m < 12 ->
  0 <= d <= days_in_month y m + 1 ->
  forall y' m' d',
  normalize_y_m_d y m d = (y', m', d') ->
  y' = y.
Proof.
  intros Hm Hd y' m' d' E. unfold normalize_y_m_d in E. cbv zeta in E.
  destruct ((d <? 1) || (days_in_month y m <? d)) eqn:Hout.
  - destruct (Z.eqb_spec d 0) as [H0 | H0].
    + destruct (Z.ltb_spec 0 (m - 1)); inversion E; lia.
    + destruct (Z.eqb_spec d (days_in_month y m + 1)) as [H1 | H1].
      * destruct (Z.ltb_spec 12 (m + 1)); inversion E; lia.
      * exfalso. apply orb_true_iff in Hout. rewrite !Z.ltb_lt in Hout. lia.
  - inversion E; lia.
Qed.

(** Subtracting the offset from the wall clock of a well-formed aware
    datetime gives the wall clock of the same instant at offset 0, in the
    same year or a neighbouring one; from February to November, in the same
    year. *)
Lemma normalize_to_utc (t : aware) :
  valid_aware t ->
  forall t',
  normalize_datetime (wall t) (- (utcoffset t / 86400))
    (- (utcoffset t mod 86400)) 0 = t' ->
  utc_micros (mkAware t' 0) = utc_micros t
  /\ year (wall t) - 1 <= year t' <= year (wall t) + 1
  /\ (1 < month (wall t) < 12 -> year t' = year (wall t)).
Proof.
  destruct t as [[y m d h mi s us] off].
  intros [(Hy & Hm & Hd & Hh & Hmi & Hs & Hus) Hoff] t'.
  cbn [wall utcoffset year month day hour minute second microsecond] in *.
  unfold normalize_datetime.
  cbn [wall utcoffset year month day hour minute second microsecond].
  replace ((us + 0) / 1000000) with 0
    by (Z.div_mod_to_equations; lia).
  replace ((us + 0) mod 1000000) with us
    by (Z.div_mod_to_equations; lia).
  assert (Hdays : -1 <= off / 86400 <= 0) by (Z.div_mod_to_equations; lia).
  assert (Hsecs : 0 <= off mod 86400 < 86400) by (apply Z.mod_pos_bound; lia).
  assert (Hoffeq : off = (off / 86400) * 86400 + off mod 86400)
    by (Z.div_mod_to_equations; lia).
  pose proof (carries_keep_seconds d h mi s (off / 86400) (off mod 86400)
                Hh Hmi Hs Hdays Hsecs) as Hc.
  cbv zeta in Hc. destruct Hc as [Hsum Hday].
  set (s1 := s + - (off mod 86400) + 0) in *.
  set (mi1 := mi + s1 / 60) in *.
  set (h1 := h + mi1 / 60) in *.
  set (d1 := d + - (off / 86400) + h1 / 24) in *.
  destruct (normalize_y_m_d y m d1) as [[y' m'] d'] eqn:E.
  pose proof (normalize_y_m_d_year y m d1 ltac:(lia) y' m' d' E) as Hyear.
  assert (Hsame : 1 < m < 12 -> y' = y).
  { intros Hmid.
    exact (normalize_y_m_d_same_year y m d1 Hmid ltac:(lia) y' m' d' E). }
  apply normalize_y_m_d_ordinal in E; [|lia|lia].
  intros <-. split; [|split; [exact Hyear | exact Hsame]].
  unfold utc_micros.
  cbn [wall utcoffset year month day hour minute second microsecond].
  rewrite E. unfold ymd_to_ord in *.
  generalize dependent (days_before_year y + days_before_month y m).
  intros base Hbase.
  clear Hdays Hsecs Hday Hd Hm Hyear Hy Hsame.
  clearbody d1. clearbody h1. clearbody mi1. clearbody s1.
  rewrite Hoffeq.
  generalize dependent (h1 mod 24). generalize dependent (mi1 mod 60).
  generalize dependent (s1 mod 60). generalize dependent (off mod 86400).
  generalize dependent (off / 86400). intros. lia.
Qed.

(** X9. Converting a well-formed aware datetime to UTC either returns a
    datetime of offset 0 that denotes the same instant, so that the
    resolver compares revisions with the target instant itself, or raises
    [OverflowError].  It returns for every datetime of the years 2 to 9998,
    and raises only for one of year 1 or of year 9999. *)
Theorem astimezone_utc_same_instant :
  forall t : aware,
  valid_aware t ->
  (forall u, astimezone_utc t = Returned u ->
             utcoffset u = 0 /\ utc_micros u = utc_micros t)
  /\ (MINYEAR < year (wall t) < MAXYEAR ->
      exists u, astimezone_utc t = Returned u)
  /\ (forall e, astimezone_utc t = Raised e ->
                e = OverflowError "date value out of range"
                /\ (year (wall t) = MINYEAR \/ year (wall t) = MAXYEAR)).
Proof.
  intros t Hv.
  destruct (normalize_to_utc t Hv _ eq_refl) as (Hinst & Hyear & _).
  assert (Hy : MINYEAR <= year (wall t) <= MAXYEAR) by apply Hv.
  unfold astimezone_utc. cbv zeta.
  destruct (in_year_range _) eqn:Hr.
  - split; [|split].
    + intros u Hu. injection Hu as <-. split; [reflexivity | exact Hinst].
    + intros _. eexists. reflexivity.
    + intros e He. discriminate He.
  - assert (Hedge : year (wall t) = MINYEAR \/ year (wall t) = MAXYEAR).
    { unfold in_year_range in Hr. apply andb_false_iff in Hr.
      rewrite !Z.leb_gt in Hr. lia. }
    split; [|split].
    + intros u Hu. discriminate Hu.
    + intros Hin. lia.
    + intros e He. injection He as <-. split; [reflexivity | exact Hedge].
Qed.

(** The target 2024-06-02 22:00:00 Eastern converts, to the same
    instant. *)
Lemma astimezone_utc_same_instant_witness :
  let t := eastern_daylight 2024 6 2 22 0 0 in
  (forall u, astimezone_utc t = Returned u ->
             utcoffset u = 0 /\ utc_micros u = utc_micros t)
  /\ (MINYEAR < year (wall t) < MAXYEAR ->
      exists u, astimezone_utc t = Returned u)
  /\ (forall e, astimezone_utc t = Raised e ->
                e = OverflowError "date value out of range"
                /\ (year (wall t) = MINYEAR \/ year (wall t) = MAXYEAR)).
Proof.
  intros t.
  apply (astimezone_utc_same_instant t).
  unfold t, valid_aware, valid_naive, eastern_daylight, EDT, MINYEAR, MAXYEAR.
  cbn [wall utcoffset year month day hour minute second microsecond].
  change (days_in_month 2024 6) with 30. lia.
Defined.

(* ================================================================== *)
(** * The targets of a run *)

(** The days of the range are well-formed datetimes. *)
Lemma summer_target_valid (eastern : timezone) (y m d : Z) :
  in_year_range y = true ->
  in_summer m d ->
  (forall t, -86400 < offset_at eastern t < 86400) ->
  valid_aware (localize eastern (at_10pm y m d)).
Proof.
  intros Hy Hmd Htz. apply in_year_range_iff in Hy.
  unfold valid_aware, valid_naive, localize, at_10pm.
  cbn [wall utcoffset year month day hour minute second microsecond].
  split; [|apply Htz].
  split; [exact Hy|].
  destruct Hmd as [[-> Hd] | [[-> Hd] | [-> Hd]]];
    unfold days_in_month; cbn [Z.eqb Pos.eqb andb days_in_month_table]; lia.
Qed.

(** X11. For every year of the calendar, the first and the last included,
    every target the generator hands to the resolver converts to UTC: the
    conversion returns a datetime of offset 0, of the same instant and of
    the same year, so a run never meets the [OverflowError] of a conversion
    at the ends of the calendar. *)
Theorem weeknight_targets_convert :
  forall (fuel : nat) (eastern : timezone) (yr : Z),
  (92 <= fuel)%nat ->
  MINYEAR <= yr <= MAXYEAR ->
  (forall t, -86400 < offset_at eastern t < 86400) ->
  exists dates,
    get_weeknight_dates fuel eastern yr = Returned dates
    /\ forall target,
         In target dates ->
         exists target_utc,
           astimezone_utc target = Returned target_utc
           /\ utcoffset target_utc = 0
           /\ utc_micros target_utc = utc_micros target
           /\ year (wall target_utc) = yr.
Proof.
  intros fuel eastern yr Hfuel Hyear Htz.
  apply in_year_range_iff in Hyear.
  eexists. split; [apply get_weeknight_dates_run; assumption|].
  intros target Hin. apply in_map_iff in Hin.
  destruct Hin as (t & <- & Ht). apply filter_In in Ht. destruct Ht as [Ht _].
  apply summer_days_in in Ht. destruct Ht as (m & d & Hmd & ->).
  pose proof (summer_target_valid eastern yr m d Hyear Hmd Htz) as Hv.
  destruct (normalize_to_utc _ Hv _ eq_refl) as (Hinst & _ & Hsame).
  assert (Hmid : 1 < month (wall (localize eastern (at_10pm yr m d))) < 12).
  { unfold localize, at_10pm. cbn [wall month].
    destruct Hmd as [[-> _] | [[-> _] | [-> _]]]; lia. }
  specialize (Hsame Hmid).
  unfold astimezone_utc. cbv zeta.
  rewrite Hsame.
  change (year (wall (localize eastern (at_10pm yr m d)))) with yr.
  rewrite Hyear.
  eexists. split; [reflexivity|].
  split; [reflexivity|]. split; [exact Hinst|].
  cbn [wall]. rewrite Hsame. reflexivity.
Qed.

(** The last year of the calendar. *)
Lemma weeknight_targets_convert_witness :
  exists dates,
    get_weeknight_dates 92 (fixed_offset EDT) 9999 = Returned dates
    /\ forall target,
         In target dates ->
         exists target_utc,
           astimezone_utc target = Returned target_utc
           /\ utcoffset target_utc = 0
           /\ utc_micros target_utc = utc_micros target
           /\ year (wall target_utc) = 9999.
Proof.
  apply (weeknight_targets_convert 92 (fixed_offset EDT) 9999).
  - lia.
  - unfold MINYEAR, MAXYEAR. lia.
  - intros t. unfold EDT. cbn. lia.
Defined.
